(** * The GitHub synchronisation and caching layer of the beehive dashboard

    A shallow embedding of [src/data_loader.py]: the [GitHubDataLoader]
    class (fingerprint lookup, raw download, change detection, the cache
    and the monitoring flag) and the module-level functions built on the
    global [github_loader] instance; then of their callers, the refresh
    endpoint of [src/main.py] and, from [src/dashboard.py], the initial
    load, the reload that opens [update_dashboard] and its alert loop.

    The Python object is mutable and its methods perform network requests,
    so every function below threads a [world] explicitly.  What a request
    returns is not under the program's control: it is read from a
    [network] argument.  Exceptions are values of [exn]; a computation
    that may raise returns [exn + A].

    Objects that callers can alias or mutate ([DataFrame]s, decoded
    configurations) live in stores and are handled through references.
    The functions called by the foreground run to their end without a
    pass of a monitor thread in between; the passes of the monitor
    threads are steps of their own ([monitor_loop]).  [print] is taken
    not to raise, apart from what its arguments evaluate. *)

From Stdlib Require Import String Ascii ZArith Bool Lia.
From stdpp Require Import base option list strings.

#[local] Set Warnings "-register-all".

(** ** Python values that the loader handles *)

(** The two file names requested by the loader, ['beehive_data.json'] and
    ['hives_config.json']. *)
Inductive artifact := beehive_data | hives_config.

(** Exception classes, up to what the handlers of [data_loader.py] tell
    apart ([except FileNotFoundError], [except ValueError],
    [except Exception]); messages are dropped.  [json.JSONDecodeError] is
    a [ValueError].  [DanglingRef] does not exist in Python: the model
    raises it when a reference denotes no live object, which no
    well-formed world does (see [wf]). *)
Inductive exn :=
| ValueError | FileNotFoundError | TypeError | KeyError | AttributeError
| PlainException | DanglingRef.

(** What [json.loads] builds.  Numbers keep their literal; the fields of
    an object have distinct keys, as the keys of a [dict] do. *)
Inductive json :=
| JNull
| JBool (b : bool)
| JNum (literal : string)
| JStr (s : string)
| JArr (items : list json)
| JObj (fields : list (string * json)).

(** [len(x)]: defined on [str], [list] and [dict], [TypeError] on [None],
    booleans and numbers. *)
Definition py_len (x : json) : exn + nat :=
  match x with
  | JStr s => inr (String.length s)
  | JArr items => inr (length items)
  | JObj fields => inr (length fields)
  | JNull | JBool _ | JNum _ => inl TypeError
  end.

(** [x[key]] for a string key: a [dict] is looked up ([KeyError] when the
    key is absent), every other value raises [TypeError]. *)
Fixpoint assoc (key : string) (fields : list (string * json)) : option json :=
  match fields with
  | [] => None
  | (k, v) :: rest => if String.eqb k key then Some v else assoc key rest
  end.

Definition py_getitem (x : json) (key : string) : exn + json :=
  match x with
  | JObj fields =>
      match assoc key fields with Some v => inr v | None => inl KeyError end
  | _ => inl TypeError
  end.

(** [for item in x]: the items of a [list], the keys of a [dict], the
    characters of a [str]; other values are not iterable. *)
Fixpoint chars (s : string) : list json :=
  match s with
  | EmptyString => []
  | String c rest => JStr (String c EmptyString) :: chars rest
  end.

Definition py_iter (x : json) : exn + list json :=
  match x with
  | JArr items => inr items
  | JObj fields => inr (map (fun kv => JStr (fst kv)) fields)
  | JStr s => inr (chars s)
  | JNull | JBool _ | JNum _ => inl TypeError
  end.

(** [[item[key] for item in xs]], stopping at the first exception. *)
Fixpoint subscript_all (xs : list json) (key : string) : exn + list json :=
  match xs with
  | [] => inr []
  | x :: rest =>
      match py_getitem x key with
      | inl e => inl e
      | inr v =>
          match subscript_all rest key with
          | inl e => inl e
          | inr vs => inr (v :: vs)
          end
      end
  end.

(** [str.strip()] on ASCII text: Python's white space below 128 is
    9..13, 28..31 and 32. *)
Definition py_isspace (c : ascii) : bool :=
  let n := nat_of_ascii c in
  ((9 <=? n) && (n <=? 13) || (28 <=? n) && (n <=? 32))%nat.

Fixpoint lstrip (s : string) : string :=
  match s with
  | EmptyString => EmptyString
  | String c rest => if py_isspace c then lstrip rest else s
  end.

Fixpoint rstrip (s : string) : string :=
  match s with
  | EmptyString => EmptyString
  | String c rest =>
      match rstrip rest with
      | EmptyString => if py_isspace c then EmptyString else String c EmptyString
      | kept => String c kept
      end
  end.

Definition strip (s : string) : string := rstrip (lstrip s).

(** ** The libraries the loader calls

    [json.loads], pandas and the built-ins [min] and [max] are not code of
    this repository; the loader is verified for every behaviour they may
    have.  [json_loads text = None] stands for a [JSONDecodeError]; a
    text on which [json.loads] raises something else (a [RecursionError]
    on very deep nesting) is not in the model.  [build_frame data]
    stands for lines 125-126, [df = pd.DataFrame(data)] followed by
    [df['timestamp'] = pd.to_datetime(df['timestamp'])]. *)
Class PyRuntime := {
  frame : Type;
  json_loads : string -> option json;
  build_frame : json -> exn + frame;
  py_min : list json -> exn + json;
  py_max : list json -> exn + json;
}.

(** ** The network *)

(** The outcome of the request in [_get_file_hash_from_github]:
    [HashRaise] is any exception inside its [try] block (no connection,
    a body that is not JSON or not an object); [HashStatus code sha]
    is a response with that status code whose decoded body gives
    [file_data.get('sha') = sha]. *)
Inductive hash_reply :=
| HashRaise
| HashStatus (code : Z) (sha : option string).

(** The outcome of [requests.get(raw_url)]: an exception of class [e], or
    a response with a status code and a body. *)
Inductive raw_reply :=
| RawRaise (e : exn)
| RawStatus (code : Z) (text : string).

Record network := {
  contents_api : artifact -> hash_reply;
  raw_host : artifact -> raw_reply;
}.

Inductive request :=
| GetContents (a : artifact)
| GetRaw (a : artifact).

(** The value computed by the [try] block of
    [_get_file_hash_from_github], lines 47-54: the fingerprint that a
    check observes. *)
Definition observed (net : network) (filename : artifact) : option string :=
  match contents_api net filename with
  | HashStatus code sha => if (code =? 200)%Z then sha else None
  | HashRaise => None
  end.

(** The value computed by [_fetch_file_from_github_raw], lines 59-70:
    the body of a 200 response; [FileNotFoundError] is re-raised as it
    is, every other exception is replaced by a plain [Exception]. *)
Definition raw_text (net : network) (filename : artifact) : exn + string :=
  match raw_host net filename with
  | RawStatus code text =>
      if (code =? 200)%Z then inr text
      else if (code =? 404)%Z then inl FileNotFoundError
      else inl PlainException
  | RawRaise FileNotFoundError => inl FileNotFoundError
  | RawRaise _ => inl PlainException
  end.

(** ** The state *)

(** References to Python objects: an index into the store of its class. *)
Definition loc := nat.

Section Loader.
Context {RT : PyRuntime}.

(** Lines 76-82 of [load_json_from_github], applied to the text that was
    fetched. *)
Definition decode (content : string) : exn + json :=
  if String.eqb content EmptyString || String.eqb (strip content) EmptyString
  then inl ValueError
  else match json_loads content with
       | Some value => inr value
       | None => inl ValueError
       end.

(** What [load_json_from_github] returns or raises for a file. *)
Definition parsed (net : network) (filename : artifact) : exn + json :=
  match raw_text net filename with
  | inl e => inl e
  | inr content => decode content
  end.

(** What lines 121-126 obtain before the cache is assigned: the table
    and the configuration, or the first exception of the two downloads,
    the two decodings and the conversion to a [DataFrame]. *)
Definition fetched (net : network) : exn + (frame * json) :=
  match parsed net beehive_data with
  | inl e => inl e
  | inr data =>
      match parsed net hives_config with
      | inl e => inl e
      | inr hives =>
          match build_frame data with
          | inl e => inl e
          | inr table => inr (table, hives)
          end
      end
  end.

(** The downloads that lines 121-122 attempt: line 122 is reached only
    when line 121 returned. *)
Definition raw_requests (net : network) : list request :=
  match parsed net beehive_data with
  | inl _ => [GetRaw beehive_data]
  | inr _ => [GetRaw beehive_data; GetRaw hives_config]
  end.

(** The fields of [GitHubDataLoader] set up by [__init__] (lines 37-42),
    the live [DataFrame] objects and decoded configuration objects, the
    number of monitor threads that have been started and have not left
    their loop, and the requests sent so far, oldest first. *)
Record world := World {
  data_cache : option loc;
  config_cache : option loc;
  last_data_hash : option string;
  last_config_hash : option string;
  monitoring : bool;
  frames : list frame;
  configs : list json;
  monitor_threads : nat;
  requests : list request;
}.

(** [GitHubDataLoader.__init__], lines 37-42, in a fresh process. *)
Definition init : world :=
  World None None None None false [] [] 0 [].

Definition set_cache (d c : option loc) (w : world) : world :=
  World d c (last_data_hash w) (last_config_hash w) (monitoring w)
        (frames w) (configs w) (monitor_threads w) (requests w).

Definition set_hashes (d c : option string) (w : world) : world :=
  World (data_cache w) (config_cache w) d c (monitoring w)
        (frames w) (configs w) (monitor_threads w) (requests w).

Definition set_monitoring (b : bool) (w : world) : world :=
  World (data_cache w) (config_cache w) (last_data_hash w) (last_config_hash w)
        b (frames w) (configs w) (monitor_threads w) (requests w).

Definition set_frames (fs : list frame) (w : world) : world :=
  World (data_cache w) (config_cache w) (last_data_hash w) (last_config_hash w)
        (monitoring w) fs (configs w) (monitor_threads w) (requests w).

Definition set_configs (cs : list json) (w : world) : world :=
  World (data_cache w) (config_cache w) (last_data_hash w) (last_config_hash w)
        (monitoring w) (frames w) cs (monitor_threads w) (requests w).

Definition set_threads (n : nat) (w : world) : world :=
  World (data_cache w) (config_cache w) (last_data_hash w) (last_config_hash w)
        (monitoring w) (frames w) (configs w) n (requests w).

(** Sending requests leaves everything else as it is. *)
Definition sent (rs : list request) (w : world) : world :=
  World (data_cache w) (config_cache w) (last_data_hash w) (last_config_hash w)
        (monitoring w) (frames w) (configs w) (monitor_threads w)
        (requests w ++ rs).

Definition send (r : request) (w : world) : world := sent [r] w.

(** ** Computations that may raise *)

Definition M (A : Type) : Type := world -> (exn + A) * world.

Definition ret {A} (a : A) : M A := fun w => (inr a, w).
Definition bind {A B} (m : M A) (k : A -> M B) : M B :=
  fun w =>
    match m w with
    | (inr a, w') => k a w'
    | (inl e, w') => (inl e, w')
    end.
Definition lift {A} (r : exn + A) : M A := fun w => (r, w).
Definition modify (f : world -> world) : M unit := fun w => (inr tt, f w).

Notation "'do' x <- m ; k" := (bind m (fun x => k))
  (at level 10, x name, m at level 100, k at level 200,
   format "'[v' 'do'  x  <-  m ; '/' k ']'").

(** ** The fetcher *)

(** Lines 44-54.  Every exception is swallowed into [None]. *)
Definition _get_file_hash_from_github (net : network) (filename : artifact)
  (w : world) : option string * world :=
  (observed net filename, send (GetContents filename) w).

(** Lines 56-70. *)
Definition _fetch_file_from_github_raw (net : network) (filename : artifact)
  : M string :=
  fun w => (raw_text net filename, send (GetRaw filename) w).

(** Lines 72-82. *)
Definition load_json_from_github (net : network) (filename : artifact)
  : M json :=
  do content <- _fetch_file_from_github_raw net filename;
  lift (decode content).

(** ** The change detector *)

(** Lines 84-111.  Nothing in the [try] block raises (the fingerprint
    lookup swallows its exceptions), so the handler of line 109 is never
    entered and the function returns a boolean. *)
Definition check_for_updates (net : network) (w : world) : bool * world :=
  let '(data_hash, w1) := _get_file_hash_from_github net beehive_data w in
  let '(config_hash, w2) := _get_file_hash_from_github net hives_config w1 in
  let data_updated :=
    bool_decide (data_hash <> last_data_hash w2)
    && bool_decide (last_data_hash w2 <> None) in
  let config_updated :=
    bool_decide (config_hash <> last_config_hash w2)
    && bool_decide (last_config_hash w2 <> None) in
  let w3 := set_hashes data_hash config_hash w2 in
  if data_updated || config_updated then (true, w3) else (false, w3).

(** Lines 228-231. *)
Definition force_check_updates (net : network) (w : world) : bool * world :=
  check_for_updates net w.

(** ** The cache manager *)

(** [ref.copy()] on a [DataFrame] reference ([deep=True] is the
    default): a new object with the same value.  On [None] Python raises
    [AttributeError]. *)
Definition copy_frame (ref : option loc) : M loc :=
  fun w =>
    match ref with
    | None => (inl AttributeError, w)
    | Some l =>
        match frames w !! l with
        | Some f => (inr (length (frames w)), set_frames (frames w ++ [f]) w)
        | None => (inl DanglingRef, w)
        end
    end.

(** Lines 139 and 143, [return self.data_cache.copy(), self.config_cache]:
    the first component is a new object, the second is the reference held
    by the cache. *)
Definition return_cached : M (loc * option loc) :=
  fun w => (do df <- copy_frame (data_cache w); ret (df, config_cache w)) w.

(** Objects enter the stores when the loader keeps them.  A decoded
    [null] is Python's [None], not an object. *)
Definition new_frame (f : frame) : M loc :=
  fun w => (inr (length (frames w)), set_frames (frames w ++ [f]) w).

Definition new_config (value : json) : M (option loc) :=
  fun w =>
    match value with
    | JNull => (inr None, w)
    | _ => (inr (Some (length (configs w))), set_configs (configs w ++ [value]) w)
    end.

(** Lines 125-130, once the table is built: the new objects are kept and
    both cache fields are assigned. *)
Definition install (table : frame) (hives : json) : M unit :=
  do df <- new_frame table;
  do cfg <- new_config hives;
  modify (set_cache (Some df) cfg).

(** The [try] block of [load_data_with_cache], lines 118-132.  The
    [print] of line 132 evaluates [len(df)], which cannot fail, and
    [len(hives_config)], which can; it runs after the cache is updated. *)
Definition reload (net : network) : M unit :=
  do data <- load_json_from_github net beehive_data;
  do hives <- load_json_from_github net hives_config;
  do table <- lift (build_frame data);
  do _ <- install table hives;
  do _ <- lift (py_len hives);
  ret tt.

(** Lines 117-143, the body of the [if]: the [try] block, its handler
    and the final [return]. *)
Definition reload_or_fall_back (net : network) : M (loc * option loc) :=
  fun w =>
    match reload net w with
    | (inr _, w') => return_cached w'
    | (inl e, w') =>
        match data_cache w', config_cache w' with
        | Some _, Some _ => return_cached w'
        | _, _ => (inl e, w')
        end
    end.

(** Lines 113-143.  [or] is short-circuit: [check_for_updates] runs only
    when both caches are set. *)
Definition load_data_with_cache (net : network) : M (loc * option loc) :=
  fun w =>
    let '(stale, w1) :=
      match data_cache w, config_cache w with
      | Some _, Some _ => check_for_updates net w
      | _, _ => (true, w)
      end in
    if stale then reload_or_fall_back net w1 else return_cached w1.

(** ** The poller *)

(** Lines 145-163. *)
Definition start_monitoring (w : world) : world :=
  if monitoring w then w
  else set_threads (S (monitor_threads w)) (set_monitoring true w).

(** Lines 165-168. *)
Definition stop_monitoring (w : world) : world := set_monitoring false w.

(** One pass of a live monitor thread through the head of
    [while self.monitoring] (line 153): with the flag set it runs the
    body, [check_for_updates] and a sleep; with the flag clear the thread
    leaves the loop.  The handler of line 157 is never entered. *)
Definition monitor_loop (net : network) (w : world) : world :=
  match monitor_threads w with
  | O => w
  | S others =>
      if monitoring w then snd (check_for_updates net w)
      else set_threads others w
  end.

(** Passes of the monitor threads through the loop head, one per element
    of [nets], each with the network as it is at that moment. *)
Definition run_monitor (nets : list network) (w : world) : world :=
  fold_left (fun w' net => monitor_loop net w') nets w.

(** ** The module-level functions on [github_loader] *)

(** The handlers of lines 186-191 re-raise with a longer message and the
    class they name. *)
Definition reraised (e : exn) : exn :=
  match e with
  | ValueError => ValueError
  | FileNotFoundError => FileNotFoundError
  | _ => PlainException
  end.

(** Lines 173-191. *)
Definition load_beehive_data_from_json (net : network) : M (loc * option loc) :=
  fun w =>
    let w1 := if negb (monitoring w) then start_monitoring w else w in
    match load_data_with_cache net w1 with
    | (inr r, w2) => (inr r, w2)
    | (inl e, w2) => (inl (reraised e), w2)
    end.

(** Lines 217-226. *)
Definition refresh_data (net : network) : M (loc * option loc) :=
  fun w => load_beehive_data_from_json net (set_cache None None w).

(** The dictionary built by [get_data_info]; [date_range] keeps the two
    values that line 209 formats into one string. *)
Record data_info := {
  source : string;
  total_records : nat;
  num_hives : nat;
  date_range : json * json;
  hive_names : list json;
  auto_update : bool;
}.

(** The [try] block of [get_data_info], lines 196-212. *)
Definition collect_info (net : network) : M data_info :=
  do data <- load_json_from_github net beehive_data;
  do hives <- load_json_from_github net hives_config;
  do items <- lift (py_iter data);
  do timestamps <- lift (subscript_all items "timestamp");
  do start_date <- lift (py_min timestamps);
  do end_date <- lift (py_max timestamps);
  do total <- lift (py_len data);
  do count <- lift (py_len hives);
  do hive_items <- lift (py_iter hives);
  do names <- lift (subscript_all hive_items "name");
  fun w =>
    (inr {| source := "github"; total_records := total; num_hives := count;
            date_range := (start_date, end_date); hive_names := names;
            auto_update := monitoring w |}, w).

(** Lines 193-215: the function returns the dictionary, or the text of
    the exception it caught; it never raises. *)
Inductive info_result :=
| Info (i : data_info)
| ErrorText (e : exn).

Definition get_data_info (net : network) (w : world) : info_result * world :=
  match collect_info net w with
  | (inr i, w') => (Info i, w')
  | (inl e, w') => (ErrorText e, w')
  end.

(** ** Callers *)

(** A caller that mutates in place an object it was handed. *)
Definition mutate_frame (l : loc) (f : frame) (w : world) : world :=
  set_frames (<[l := f]> (frames w)) w.

Definition mutate_config (l : loc) (value : json) (w : world) : world :=
  set_configs (<[l := value]> (configs w)) w.

(** What a reference denotes. *)
Definition frame_at (w : world) (ref : option loc) : option frame :=
  match ref with Some l => frames w !! l | None => None end.


(** The cache refers to live objects. *)
Definition wf (w : world) : Prop :=
  (forall l, data_cache w = Some l -> l < length (frames w))
  /\ (forall l, config_cache w = Some l -> l < length (configs w)).

(** The loader holds a table of value [f] and a configuration, and
    either its recorded fingerprints are those that [net] serves, or
    [f] is what a download from [net] produces. *)
Definition settled (net : network) (w : world) (f : frame) : Prop :=
  (exists l, data_cache w = Some l /\ frames w !! l = Some f)
  /\ (exists lc, config_cache w = Some lc /\ lc < length (configs w))
  /\ ((last_data_hash w = observed net beehive_data
       /\ last_config_hash w = observed net hives_config)
      \/ (exists hives, fetched net = inr (f, hives) /\ hives <> JNull)).

End Loader.

(** ** Construction of the loader *)

(** [os.getenv]: the environment of the process, after [load_dotenv]. *)
Definition environ := string -> option string.

(** The truth value of an [Optional[str]]: [None] and the empty string
    are false. *)
Definition truthy (v : option string) : bool :=
  match v with
  | Some s => negb (String.eqb s EmptyString)
  | None => false
  end.

(** An [Optional[str]] inside an f-string. *)
Definition fmt (v : option string) : string :=
  match v with
  | Some s => s
  | None => "None"
  end.

(** The fields that [__init__] computes from the environment, lines
    20-34; [headers] is the dictionary in insertion order.  The cache
    fields of lines 37-42 are those of [init]. *)
Record settings := Settings {
  repo_owner : option string;
  repo_name : option string;
  token : option string;
  base_url : string;
  headers : list (string * string);
}.

(** [GitHubDataLoader.__init__], lines 19-34: the settings, or the
    message of the [ValueError] of line 28. *)
Definition __init__ (env : environ) : string + settings :=
  let owner := env "GITHUB_REPO_OWNER" in
  let name := env "GITHUB_REPO_NAME" in
  let tok := env "GITHUB_TOKEN" in
  if negb (forallb truthy [owner; name]) then
    let missing :=
      (if negb (truthy owner) then ["GITHUB_REPO_OWNER"] else [])
      ++ (if negb (truthy name) then ["GITHUB_REPO_NAME"] else []) in
    inl ("Missing required environment variables: "
         +:+ String.concat ", " missing)
  else
    inr (Settings owner name tok
           ("https://api.github.com/repos/" +:+ fmt owner +:+ "/"
            +:+ fmt name)
           ((if truthy tok then [("Authorization", "token " +:+ fmt tok)]
             else [])
            ++ [("Accept", "application/vnd.github.v3+json")])).

Definition filename (a : artifact) : string :=
  match a with
  | beehive_data => "beehive_data.json"
  | hives_config => "hives_config.json"
  end.

(** What goes on the wire for a request: the URL and the headers passed
    to [requests.get], on lines 46-48 for a fingerprint lookup and on
    lines 58-60 for a raw download. *)
Record http_request := HttpRequest {
  url : string;
  request_headers : list (string * string);
}.

Definition wire (s : settings) (r : request) : http_request :=
  match r with
  | GetContents a =>
      HttpRequest (base_url s +:+ "/contents/" +:+ filename a) (headers s)
  | GetRaw a =>
      HttpRequest ("https://raw.githubusercontent.com/"
                   +:+ fmt (repo_owner s) +:+ "/" +:+ fmt (repo_name s)
                   +:+ "/main/" +:+ filename a) []
  end.

(** ** The callers of the loader *)

Section Callers.
Context {RT : PyRuntime}.

(** [len(df)] on a [DataFrame], the number of its rows. *)
Variable frame_len : frame -> nat.

Definition len_frame (ref : loc) (w : world) : exn + nat :=
  match frames w !! ref with
  | Some table => inr (frame_len table)
  | None => inl DanglingRef
  end.

(** [len(hives_config)] on a reference: [None] has no length. *)
Definition len_config (ref : option loc) (w : world) : exn + nat :=
  match ref with
  | None => inl TypeError
  | Some l =>
      match configs w !! l with
      | Some value => py_len value
      | None => inl DanglingRef
      end
  end.

(** The dictionary returned by [refresh_data_endpoint] of [main.py]:
    status "success" with the two counts, or status "error" with the
    text of the exception. *)
Inductive refresh_reply :=
| RefreshSuccess (records hives : nat)
| RefreshError (e : exn).

(** [main.py], lines 38-53. *)
Definition refresh_data_endpoint (net : network) (w : world)
  : refresh_reply * world :=
  match refresh_data net w with
  | (inr (df, cfg), w') =>
      match len_frame df w' with
      | inl e => (RefreshError e, w')
      | inr records =>
          match len_config cfg w' with
          | inl e => (RefreshError e, w')
          | inr hives => (RefreshSuccess records hives, w')
          end
      end
  | (inl e, w') => (RefreshError e, w')
  end.

(** The globals [df] and [hives_config] of [dashboard.py]. *)
Record tables := Tables {
  df : loc;
  hives_config_ref : option loc;
}.

(** [dashboard.py], lines 56-66, the initial load at import time; [None]
    is [exit(1)]. *)
Definition dashboard_start (net : network) (w : world)
  : option tables * world :=
  match load_beehive_data_from_json net w with
  | (inr (d, c), w') => (Some (Tables d c), w')
  | (inl _, w') => (None, w')
  end.

(** [dashboard.py], lines 264-269, the first statement of
    [update_dashboard]: the globals are assigned when the load returns
    and kept when it raises. *)
Definition reload_tables (net : network) (g : tables) (w : world)
  : tables * world :=
  match load_beehive_data_from_json net w with
  | (inr (d, c), w') => (Tables d c, w')
  | (inl _, w') => (g, w')
  end.

(** The worlds that the functions of [data_loader.py] and their callers
    produce, starting from a fresh process. *)
Inductive reachable : world -> Prop :=
| reach_init : reachable init
| reach_check net w :
    reachable w -> reachable (snd (force_check_updates net w))
| reach_load net w :
    reachable w -> reachable (snd (load_data_with_cache net w))
| reach_load_json net w :
    reachable w -> reachable (snd (load_beehive_data_from_json net w))
| reach_refresh net w :
    reachable w -> reachable (snd (refresh_data net w))
| reach_info net w :
    reachable w -> reachable (snd (get_data_info net w))
| reach_start w : reachable w -> reachable (start_monitoring w)
| reach_stop w : reachable w -> reachable (stop_monitoring w)
| reach_monitor net w : reachable w -> reachable (monitor_loop net w)
| reach_mutate_frame l f w : reachable w -> reachable (mutate_frame l f w)
| reach_mutate_config l v w : reachable w -> reachable (mutate_config l v w).

End Callers.

(** ** The alerts of the dashboard *)

(** A cell of a row of [latest_data] as the loop of lines 315-325 of
    [dashboard.py] reads it: a finite number [num / den] (an [int] or a
    [float]), a [float] that is not finite, or a value that does not
    compare with a number ([None], a string, a list).  Cells of boolean
    columns are left out. *)
Inductive cell :=
| CNum (num : Z) (den : positive)
| CNaN
| CInf (upward : bool)
| COther.

(** [c > bn / bd] and [c < bn / bd] in Python: exact on finite numbers,
    false on [nan], [TypeError] on values that are not numbers. *)
Definition py_gt (c : cell) (bn : Z) (bd : positive) : exn + bool :=
  match c with
  | CNum n d => inr (bn * Zpos d <? n * Zpos bd)%Z
  | CNaN => inr false
  | CInf upward => inr upward
  | COther => inl TypeError
  end.

Definition py_lt (c : cell) (bn : Z) (bd : positive) : exn + bool :=
  match c with
  | CNum n d => inr (n * Zpos bd <? bn * Zpos d)%Z
  | CNaN => inr false
  | CInf upward => inr (negb upward)
  | COther => inl TypeError
  end.

(** The columns that the loop reads. *)
Record row := Row {
  hive_name : string;
  temperature : cell;
  humidity : cell;
  weight : cell;
  production_efficiency : cell;
}.

Inductive alert_type :=
| HighTemp | LowTemp | HighHumidity | LowWeight | LowEfficiency.

(** An entry of [alerts]; [Value] keeps the number that the source
    formats into a string. *)
Record alert := Alert {
  Type_ : alert_type;
  Hive : string;
  Value : cell;
}.

(** The [float] written [0.01] on line 324 is 5764607523034235 / 2^59. *)
Definition efficiency_bound_num : Z := 5764607523034235.
Definition efficiency_bound_den : positive := 576460752303423488.

(** The body of the loop, lines 316-325: five tests in this order. *)
Definition row_alerts (r : row) : exn + list alert :=
  match py_gt (temperature r) 38 1 with
  | inl e => inl e
  | inr hot =>
  match py_lt (temperature r) 30 1 with
  | inl e => inl e
  | inr cold =>
  match py_gt (humidity r) 80 1 with
  | inl e => inl e
  | inr damp =>
  match py_lt (weight r) 30 1 with
  | inl e => inl e
  | inr light =>
  match py_lt (production_efficiency r)
              efficiency_bound_num efficiency_bound_den with
  | inl e => inl e
  | inr idle =>
      inr ((if hot then [Alert HighTemp (hive_name r) (temperature r)] else [])
           ++ (if cold then [Alert LowTemp (hive_name r) (temperature r)]
               else [])
           ++ (if damp then [Alert HighHumidity (hive_name r) (humidity r)]
               else [])
           ++ (if light then [Alert LowWeight (hive_name r) (weight r)]
               else [])
           ++ (if idle
               then [Alert LowEfficiency (hive_name r)
                           (production_efficiency r)]
               else []))
  end end end end end.

(** Lines 314-325: the alerts of all rows, in the order of the rows. *)
Fixpoint generate_alerts (rows : list row) : exn + list alert :=
  match rows with
  | [] => inr []
  | r :: rest =>
      match row_alerts r with
      | inl e => inl e
      | inr here =>
          match generate_alerts rest with
          | inl e => inl e
          | inr later => inr (here ++ later)
          end
      end
  end.

(** ** A small runtime, to run the loader on concrete inputs *)

(** Frames are lists of rows; the decoder knows four documents. *)
Definition toy_loads (text : string) : option json :=
  if String.eqb text "[]" then Some (JArr [])
  else if String.eqb text "[{}]" then Some (JArr [JObj []])
  else if String.eqb text "null" then Some JNull
  else if String.eqb text "7" then Some (JNum "7")
  else None.

Definition toy_frame (data : json) : exn + list json :=
  match data with
  | JArr rows => inr rows
  | _ => inl ValueError
  end.

Definition toy_first (xs : list json) : exn + json :=
  match xs with
  | [] => inl ValueError
  | x :: _ => inr x
  end.

Definition toy : PyRuntime := {|
  frame := list json;
  json_loads := toy_loads;
  build_frame := toy_frame;
  py_min := toy_first;
  py_max := toy_first;
|}.

(** A network described by its four replies. *)
Definition serving (sha_data sha_config : hash_reply)
  (body_data body_config : raw_reply) : network :=
  {| contents_api := fun a =>
       match a with
       | beehive_data => sha_data
       | hives_config => sha_config
       end;
     raw_host := fun a =>
       match a with
       | beehive_data => body_data
       | hives_config => body_config
       end |}.

(** Both files are there, with fingerprints a1 and b1. *)
Definition steady : network :=
  serving (HashStatus 200 (Some "a1")) (HashStatus 200 (Some "b1"))
          (RawStatus 200 "[{}]") (RawStatus 200 "[]").

(** The data file has a new fingerprint a2 and new content. *)
Definition moved : network :=
  serving (HashStatus 200 (Some "a2")) (HashStatus 200 (Some "b1"))
          (RawStatus 200 "[]") (RawStatus 200 "[]").

(** The data file has a new fingerprint, and the raw host answers 500
    for it. *)
Definition moved_but_down : network :=
  serving (HashStatus 200 (Some "a2")) (HashStatus 200 (Some "b1"))
          (RawStatus 500 "Server Error") (RawStatus 200 "[]").

(** Nothing changed in the repository, and the fingerprint lookup of the
    data file is refused (status 403, as past the rate limit). *)
Definition lookup_refused : network :=
  serving (HashStatus 403 None) (HashStatus 200 (Some "b1"))
          (RawStatus 200 "[{}]") (RawStatus 200 "[]").

(** The raw host has no data file. *)
Definition gone : network :=
  serving (HashStatus 200 (Some "a1")) (HashStatus 200 (Some "b1"))
          (RawStatus 404 "Not Found") (RawStatus 200 "[]").

(** The configuration file holds [null]. *)
Definition null_config : network :=
  serving (HashStatus 200 (Some "a1")) (HashStatus 200 (Some "b2"))
          (RawStatus 200 "[]") (RawStatus 200 "null").

(** A loader that holds one table and one configuration, with the
    fingerprints a1 and b1 recorded. *)
Definition warm : @world toy :=
  @World toy (Some 0) (Some 0) (Some "a1") (Some "b1") false
         [[JObj []]] [JArr []] 0 [].

(** An environment that names the repository and gives a token, and one
    that names only the owner. *)
Definition full_env : environ :=
  fun name =>
    if String.eqb name "GITHUB_REPO_OWNER" then Some "apiary"
    else if String.eqb name "GITHUB_REPO_NAME" then Some "hives"
    else if String.eqb name "GITHUB_TOKEN" then Some "s3cret"
    else None.

Definition owner_only_env : environ :=
  fun name =>
    if String.eqb name "GITHUB_REPO_OWNER" then Some "apiary" else None.

(** A loader in which monitoring runs, with one thread. *)
Definition watched : @world toy :=
  @World toy (Some 0) (Some 0) (Some "a1") (Some "b1") true
         [[JObj []]] [JArr []] 1 [].

(** A hive within all bounds, and one that is cold and light. *)
Definition healthy_row : row :=
  Row "Hive A" (CNum 35 1) (CNum 60 1) (CNum 45 1) (CNum 1 2).

Definition weak_row : row :=
  Row "Hive B" (CNum 29 1) (CNum 60 1) (CNum 59 2) (CNum 1 2).

(** A runtime whose decoder knows one data file and one configuration
    file, and a network that serves them. *)
Definition catalogue_loads (text : string) : option json :=
  if String.eqb text "DATA"
  then Some (JArr [JObj [("timestamp", JStr "2024-05-01T10:00:00")]])
  else if String.eqb text "HIVES"
  then Some (JArr [JObj [("name", JStr "Hive A")]])
  else None.

Definition catalogue : PyRuntime := {|
  frame := list json;
  json_loads := catalogue_loads;
  build_frame := toy_frame;
  py_min := toy_first;
  py_max := toy_first;
|}.

Definition catalogue_net : network :=
  serving (HashStatus 200 (Some "a1")) (HashStatus 200 (Some "b1"))
          (RawStatus 200 "DATA") (RawStatus 200 "HIVES").


Section Properties.
Context {RT : PyRuntime}.

(** ** The change detector: properties *)

Lemma check_for_updates_result net w :
  fst (check_for_updates net w) =
    (bool_decide (observed net beehive_data <> last_data_hash w)
     && bool_decide (last_data_hash w <> None))
    || (bool_decide (observed net hives_config <> last_config_hash w)
        && bool_decide (last_config_hash w <> None)).
Proof.
  unfold check_for_updates, _get_file_hash_from_github; simpl.
  now destruct (_ || _).
Qed.

Lemma check_for_updates_world net w :
  snd (check_for_updates net w) =
    set_hashes (observed net beehive_data) (observed net hives_config)
      (send (GetContents hives_config) (send (GetContents beehive_data) w)).
Proof.
  unfold check_for_updates, _get_file_hash_from_github; simpl.
  now destruct (_ || _).
Qed.

Lemma updated_iff (seen last : option string) :
  bool_decide (seen <> last) && bool_decide (last <> None) = true
  <-> exists b, last = Some b /\ seen <> Some b.
Proof.
  rewrite andb_true_iff, !bool_decide_eq_true. split.
  - intros [Hne Hsome]. destruct last as [b|]; [|congruence].
    exists b. split; congruence.
  - intros (b & -> & Hne). split; congruence.
Qed.

(** C1, as the code has it: [check_for_updates] returns [True] exactly
    when, for one of the two files, a fingerprint was recorded by an
    earlier check and the fingerprint observed now differs from it.  A
    baseline of [None] never counts; an observed [None] against a recorded
    fingerprint does. *)
Theorem check_for_updates_true_iff net w :
  fst (check_for_updates net w) = true
  <-> (exists b, last_data_hash w = Some b /\ observed net beehive_data <> Some b)
      \/ (exists b, last_config_hash w = Some b
                    /\ observed net hives_config <> Some b).
Proof.
  rewrite check_for_updates_result, orb_true_iff.
  now rewrite !updated_iff.
Qed.

(** A check on a loader that has recorded nothing reports no change. *)
Lemma check_for_updates_first net w :
  last_data_hash w = None -> last_config_hash w = None ->
  fst (check_for_updates net w) = false.
Proof.
  intros Hd Hc. rewrite check_for_updates_result, Hd, Hc.
  rewrite !(bool_decide_eq_false_2 (None <> None)) by congruence.
  now rewrite !andb_false_r.
Qed.

(** C2: every check stores the fingerprints it observed, whatever it
    returns; and on the sequence of observations (a1, b1), (a1, b1),
    (a2, b1) the second check returns [False], the third returns [True]
    and leaves (a2, b1) recorded. *)
Theorem check_for_updates_records :
  (forall net w,
     last_data_hash (snd (check_for_updates net w)) = observed net beehive_data
     /\ last_config_hash (snd (check_for_updates net w))
        = observed net hives_config)
  /\ (forall net1 net2 net3 w,
        observed net1 beehive_data = Some "a1" ->
        observed net1 hives_config = Some "b1" ->
        observed net2 beehive_data = Some "a1" ->
        observed net2 hives_config = Some "b1" ->
        observed net3 beehive_data = Some "a2" ->
        observed net3 hives_config = Some "b1" ->
        let w1 := snd (check_for_updates net1 w) in
        let w2 := snd (check_for_updates net2 w1) in
        let w3 := snd (check_for_updates net3 w2) in
        fst (check_for_updates net2 w1) = false
        /\ fst (check_for_updates net3 w2) = true
        /\ last_data_hash w3 = Some "a2"
        /\ last_config_hash w3 = Some "b1").
Proof.
  split.
  - intros net w. now rewrite check_for_updates_world.
  - intros net1 net2 net3 w D1 C1 D2 C2 D3 C3 w1 w2 w3. subst w1 w2 w3.
    rewrite !check_for_updates_result, !check_for_updates_world; simpl.
    rewrite D1, C1, D2, C2, D3, C3. repeat split.
Qed.

(** ** The cache manager: how a reload and a return act on the world *)

Lemma sent_sent rs1 rs2 w : sent rs2 (sent rs1 w) = sent (rs1 ++ rs2) w.
Proof. unfold sent; simpl. now rewrite app_assoc. Qed.

Lemma load_json_from_github_eq net a w :
  load_json_from_github net a w = (parsed net a, sent [GetRaw a] w).
Proof.
  unfold load_json_from_github, bind, _fetch_file_from_github_raw, parsed, send.
  now destruct (raw_text net a).
Qed.

(** A reload that fails before line 129 has only sent requests. *)
Lemma reload_fails net w e :
  fetched net = inl e ->
  exists rs, reload net w = (inl e, sent rs w)
             /\ (rs = [GetRaw beehive_data]
                 \/ rs = [GetRaw beehive_data; GetRaw hives_config]).
Proof.
  unfold fetched, reload, bind. rewrite load_json_from_github_eq.
  destruct (parsed net beehive_data) as [e1|data].
  { intros [= <-]. eauto. }
  rewrite load_json_from_github_eq, sent_sent.
  destruct (parsed net hives_config) as [e2|hives].
  { intros [= <-]. eauto. }
  unfold lift at 1.
  destruct (build_frame data) as [e3|table]; [|discriminate].
  intros [= <-]. eauto.
Qed.

(** A reload that gets both files assigns the cache, and then raises or
    not with [len(hives_config)]. *)
Lemma reload_installs net w table hives :
  fetched net = inr (table, hives) ->
  reload net w =
    (match py_len hives with inl e => inl e | inr _ => inr tt end,
     snd (install table hives
            (sent [GetRaw beehive_data; GetRaw hives_config] w))).
Proof.
  unfold fetched, reload, bind. rewrite load_json_from_github_eq.
  destruct (parsed net beehive_data) as [e1|data]; [discriminate|].
  rewrite load_json_from_github_eq, sent_sent.
  destruct (parsed net hives_config) as [e2|hives']; [discriminate|].
  unfold lift at 1.
  destruct (build_frame data) as [e3|table']; [discriminate|].
  intros [= -> ->]. simpl.
  set (w1 := sent _ w).
  assert (Hi : exists w2, install table hives w1 = (inr tt, w2)).
  { unfold install, bind, new_frame, new_config, modify.
    destruct hives; eauto. }
  destruct Hi as [w2 ->]. simpl. unfold lift, ret.
  now destruct (py_len hives).
Qed.

Lemma return_cached_copies w l f :
  data_cache w = Some l -> frames w !! l = Some f ->
  return_cached w =
    (inr (length (frames w), config_cache w), set_frames (frames w ++ [f]) w).
Proof.
  intros Hd Hf. unfold return_cached, bind, copy_frame, ret.
  now rewrite Hd, Hf.
Qed.

Lemma wf_frame w l :
  wf w -> data_cache w = Some l -> exists f, frames w !! l = Some f.
Proof.
  intros [Hf _] Hd. apply lookup_lt_is_Some_2. now apply Hf.
Qed.

(** C3: with both caches set, when the check reports a change and the
    downloads, the decoding or the conversion fail, the call does not
    raise: it returns a new object with the value of the cached table
    and the cached configuration itself; both cache fields and every
    object in the stores are as before. *)
Theorem load_falls_back_to_cache net w ld lc e :
  wf w ->
  data_cache w = Some ld -> config_cache w = Some lc ->
  fst (check_for_updates net w) = true ->
  fetched net = inl e ->
  exists f w',
    frames w !! ld = Some f
    /\ load_data_with_cache net w = (inr (length (frames w), Some lc), w')
    /\ frames w' !! length (frames w) = Some f
    /\ frames w' = frames w ++ [f]
    /\ configs w' = configs w
    /\ data_cache w' = Some ld
    /\ config_cache w' = Some lc.
Proof.
  intros Hwf Hd Hc Hchk Hfail.
  destruct (wf_frame w ld Hwf Hd) as [f Hf]. exists f.
  unfold load_data_with_cache. rewrite Hd, Hc.
  destruct (check_for_updates net w) as [b w1] eqn:E.
  simpl in Hchk; subst b.
  assert (Hw1 : w1 = snd (check_for_updates net w)) by now rewrite E.
  rewrite check_for_updates_world in Hw1.
  unfold reload_or_fall_back.
  destruct (reload_fails net w1 e Hfail) as (rs & -> & _).
  assert (Hd1 : data_cache (sent rs w1) = Some ld) by now subst w1.
  assert (Hc1 : config_cache (sent rs w1) = Some lc) by now subst w1.
  assert (Hf1 : frames (sent rs w1) !! ld = Some f) by now subst w1.
  rewrite Hd1, Hc1, (return_cached_copies _ ld f Hd1 Hf1), Hc1.
  eexists. split; [exact Hf|]. subst w1. simpl.
  split; [reflexivity|]. split; [|repeat split; auto].
  change ((frames w ++ [f]) !! length (frames w) = Some f).
  now rewrite lookup_app_r, Nat.sub_diag by lia.
Qed.

(** C4: with a cache field unset, a failure of the downloads, the
    decoding or the conversion is raised to the caller, and the cache
    fields and the stores are as before. *)
Theorem load_raises_on_empty_cache net w e :
  data_cache w = None \/ config_cache w = None ->
  fetched net = inl e ->
  exists w',
    load_data_with_cache net w = (inl e, w')
    /\ data_cache w' = data_cache w
    /\ config_cache w' = config_cache w
    /\ (data_cache w' = None \/ config_cache w' = None)
    /\ frames w' = frames w
    /\ configs w' = configs w.
Proof.
  intros Hempty Hfail. unfold load_data_with_cache.
  destruct (reload_fails net w e Hfail) as (rs & Hr & _).
  assert (Hstale :
    match data_cache w, config_cache w with
    | Some _, Some _ => check_for_updates net w
    | _, _ => (true, w)
    end = (true, w)).
  { destruct Hempty as [-> | ->]; [reflexivity|]. now destruct (data_cache w). }
  rewrite Hstale. unfold reload_or_fall_back. rewrite Hr. simpl.
  exists (sent rs w).
  destruct Hempty as [H | H]; rewrite H; simpl.
  - repeat split; auto.
  - destruct (data_cache w); simpl; repeat split; auto.
Qed.

(** ** The reload branch, case by case *)

Lemma fall_back_populated net w ld lc f e :
  fetched net = inl e ->
  data_cache w = Some ld -> config_cache w = Some lc ->
  frames w !! ld = Some f ->
  exists rs,
    reload_or_fall_back net w =
      (inr (length (frames w), Some lc),
       set_frames (frames w ++ [f]) (sent rs w)).
Proof.
  intros Hfail Hd Hc Hf. unfold reload_or_fall_back.
  destruct (reload_fails net w e Hfail) as (rs & -> & _). exists rs.
  assert (Hd1 : data_cache (sent rs w) = Some ld) by exact Hd.
  assert (Hc1 : config_cache (sent rs w) = Some lc) by exact Hc.
  rewrite Hd1, Hc1, (return_cached_copies _ ld f Hd1 Hf), Hc1. reflexivity.
Qed.

Lemma install_world table hives w :
  hives <> JNull ->
  install table hives w =
    (inr tt,
     set_cache (Some (length (frames w))) (Some (length (configs w)))
       (set_configs (configs w ++ [hives])
          (set_frames (frames w ++ [table]) w))).
Proof.
  intros Hnn. unfold install, bind, new_frame, new_config, modify.
  now destruct hives.
Qed.

Lemma install_null table w :
  install table JNull w =
    (inr tt,
     set_cache (Some (length (frames w))) None
       (set_frames (frames w ++ [table]) w)).
Proof. reflexivity. Qed.

Lemma reload_replaces net w table hives :
  fetched net = inr (table, hives) -> hives <> JNull ->
  exists w',
    reload_or_fall_back net w =
      (inr (S (length (frames w)), Some (length (configs w))), w')
    /\ frames w' = frames w ++ [table; table]
    /\ configs w' = configs w ++ [hives]
    /\ data_cache w' = Some (length (frames w))
    /\ config_cache w' = Some (length (configs w))
    /\ last_data_hash w' = last_data_hash w
    /\ last_config_hash w' = last_config_hash w
    /\ requests w' = requests w ++ [GetRaw beehive_data; GetRaw hives_config].
Proof.
  intros Hok Hnn. unfold reload_or_fall_back.
  rewrite (reload_installs net w table hives Hok), install_world by exact Hnn.
  simpl snd. set (w2 := set_cache _ _ _).
  assert (Hd : data_cache w2 = Some (length (frames w))) by reflexivity.
  assert (Hf : frames w2 !! length (frames w) = Some table).
  { subst w2; simpl. now rewrite lookup_app_r, Nat.sub_diag by lia. }
  assert (Hret := return_cached_copies w2 _ _ Hd Hf).
  exists (set_frames (frames w2 ++ [table]) w2).
  assert (Hlen : length (frames w2) = S (length (frames w))).
  { subst w2; simpl. rewrite length_app; simpl; lia. }
  rewrite Hlen in Hret.
  split.
  { destruct (py_len hives); simpl; exact Hret. }
  subst w2; simpl. rewrite <- app_assoc. repeat split; reflexivity.
Qed.

(** A configuration file that holds [null] tears the cache: the table is
    replaced, the configuration field becomes [None], and the
    [TypeError] of line 132 is raised. *)
Lemma reload_null_config net w table :
  fetched net = inr (table, JNull) ->
  exists w',
    reload_or_fall_back net w = (inl TypeError, w')
    /\ data_cache w' = Some (length (frames w))
    /\ config_cache w' = None.
Proof.
  intros Hok. unfold reload_or_fall_back.
  rewrite (reload_installs net w table JNull Hok), install_null. simpl.
  eauto.
Qed.

Lemma check_for_updates_settled net w :
  last_data_hash w = observed net beehive_data ->
  last_config_hash w = observed net hives_config ->
  fst (check_for_updates net w) = false.
Proof.
  intros Hd Hc. rewrite check_for_updates_result, Hd, Hc.
  rewrite (bool_decide_eq_false_2 (observed net beehive_data <> _)) by tauto.
  rewrite (bool_decide_eq_false_2 (observed net hives_config <> _)) by tauto.
  reflexivity.
Qed.

Lemma fall_back_empty net w e :
  fetched net = inl e ->
  data_cache w = None \/ config_cache w = None ->
  exists rs, reload_or_fall_back net w = (inl e, sent rs w)
             /\ (rs = [GetRaw beehive_data]
                 \/ rs = [GetRaw beehive_data; GetRaw hives_config]).
Proof.
  intros Hfail Hempty. unfold reload_or_fall_back.
  destruct (reload_fails net w e Hfail) as (rs & -> & Hrs). exists rs.
  split; [|exact Hrs]. simpl.
  destruct Hempty as [-> | ->]; [reflexivity|].
  now destruct (data_cache w).
Qed.

Lemma null_or_not (value : json) : value = JNull \/ value <> JNull.
Proof. destruct value; (now left) || (now right). Qed.

(** When the reload branch returns, it either fell back to a cache that
    was set, or it installed what it fetched. *)
Lemma reload_or_fall_back_returns net w d c w' :
  wf w ->
  reload_or_fall_back net w = (inr (d, c), w') ->
  (exists e ld lc f rs,
      fetched net = inl e
      /\ data_cache w = Some ld /\ config_cache w = Some lc
      /\ frames w !! ld = Some f
      /\ d = length (frames w) /\ c = Some lc
      /\ w' = set_frames (frames w ++ [f]) (sent rs w))
  \/ (exists table hives,
        fetched net = inr (table, hives) /\ hives <> JNull
        /\ d = S (length (frames w)) /\ c = Some (length (configs w))
        /\ frames w' = frames w ++ [table; table]
        /\ configs w' = configs w ++ [hives]
        /\ data_cache w' = Some (length (frames w))
        /\ config_cache w' = Some (length (configs w))
        /\ last_data_hash w' = last_data_hash w
        /\ last_config_hash w' = last_config_hash w).
Proof.
  intros Hwf Hret.
  destruct (fetched net) as [e | [table hives]] eqn:F.
  - left.
    destruct (data_cache w) as [ld|] eqn:Hd.
    2:{ destruct (fall_back_empty net w e F) as (rs & Hr & _); [now left|].
        congruence. }
    destruct (config_cache w) as [lc|] eqn:Hc.
    2:{ destruct (fall_back_empty net w e F) as (rs & Hr & _); [now right|].
        congruence. }
    destruct (wf_frame w ld Hwf Hd) as [f Hf].
    destruct (fall_back_populated net w ld lc f e F Hd Hc Hf) as [rs Hr].
    rewrite Hr in Hret. injection Hret as <- <- <-.
    exists e, ld, lc, f, rs. repeat split; auto.
  - right. destruct (null_or_not hives) as [-> | Hnn].
    { destruct (reload_null_config net w table F) as (w2 & Hr & _).
      congruence. }
    destruct (reload_replaces net w table hives F Hnn)
      as (w2 & Hr & Hfr & Hcf & Hd & Hc & Hh1 & Hh2 & _).
    rewrite Hr in Hret. injection Hret as <- <- <-.
    exists table, hives. repeat split; auto.
Qed.

(** ** What a load that returns leaves behind *)

Lemma checked_world net w b w1 :
  check_for_updates net w = (b, w1) ->
  b = fst (check_for_updates net w)
  /\ data_cache w1 = data_cache w /\ config_cache w1 = config_cache w
  /\ frames w1 = frames w /\ configs w1 = configs w
  /\ last_data_hash w1 = observed net beehive_data
  /\ last_config_hash w1 = observed net hives_config.
Proof.
  intros E. assert (Hw : w1 = snd (check_for_updates net w)) by now rewrite E.
  rewrite check_for_updates_world in Hw. subst w1. rewrite E.
  repeat split; reflexivity.
Qed.

(** The world after a reload that installed what it fetched. *)
Lemma replaced_settles net w w' table hives :
  fetched net = inr (table, hives) -> hives <> JNull ->
  frames w' = frames w ++ [table; table] ->
  configs w' = configs w ++ [hives] ->
  data_cache w' = Some (length (frames w)) ->
  config_cache w' = Some (length (configs w)) ->
  settled net w' table
  /\ frames w' !! S (length (frames w)) = Some table
  /\ data_cache w' <> Some (S (length (frames w)))
  /\ frames w `prefix_of` frames w'
  /\ configs w `prefix_of` configs w'.
Proof.
  intros F Hnn Hfr Hcf Hd Hc. rewrite Hfr, Hcf, Hd.
  split; [split; [|split]|split; [|split; [|split]]].
  - exists (length (frames w)). split; [exact Hd|].
    rewrite Hfr. now rewrite lookup_app_r, Nat.sub_diag by lia.
  - exists (length (configs w)). split; [exact Hc|].
    rewrite Hcf, length_app; simpl; lia.
  - right. eauto.
  - rewrite lookup_app_r by lia.
    now replace (S (length (frames w)) - length (frames w)) with 1 by lia.
  - intros [= Hbad]. lia.
  - now apply prefix_app_r.
  - now apply prefix_app_r.
Qed.

(** The world after a return that copied the cached table. *)
Lemma copied_settles net w ld lc f :
  data_cache w = Some ld -> config_cache w = Some lc ->
  frames w !! ld = Some f -> lc < length (configs w) ->
  last_data_hash w = observed net beehive_data ->
  last_config_hash w = observed net hives_config ->
  forall rs,
    settled net (set_frames (frames w ++ [f]) (sent rs w)) f
    /\ (frames w ++ [f]) !! length (frames w) = Some f
    /\ data_cache w <> Some (length (frames w)).
Proof.
  intros Hd Hc Hf Hlc Hh1 Hh2 rs.
  assert (Hld : ld < length (frames w)) by (eapply lookup_lt_Some; exact Hf).
  split; [split; [|split]|split].
  - exists ld. split; [exact Hd|]. simpl. now rewrite lookup_app_l.
  - exists lc. simpl. now split.
  - left. simpl. now split.
  - now rewrite lookup_app_r, Nat.sub_diag by lia.
  - rewrite Hd. intros [= ->]. lia.
Qed.

Lemma sent_nil w : sent [] w = w.
Proof. destruct w. unfold sent; simpl. now rewrite app_nil_r. Qed.

Lemma load_settles net w d c w' :
  wf w ->
  load_data_with_cache net w = (inr (d, c), w') ->
  exists f lc,
    settled net w' f
    /\ c = Some lc /\ config_cache w' = Some lc
    /\ frames w' !! d = Some f
    /\ length (frames w) <= d
    /\ data_cache w' <> Some d
    /\ frames w `prefix_of` frames w'
    /\ configs w `prefix_of` configs w'.
Proof.
  intros Hwf Hload. unfold load_data_with_cache in Hload.
  assert (Hfresh : forall w1,
    frames w1 = frames w -> configs w1 = configs w -> wf w1 ->
    (forall ld lc f rs,
        data_cache w1 = Some ld -> config_cache w1 = Some lc ->
        frames w1 !! ld = Some f ->
        settled net (set_frames (frames w1 ++ [f]) (sent rs w1)) f) ->
    reload_or_fall_back net w1 = (inr (d, c), w') ->
    exists f lc,
      settled net w' f /\ c = Some lc /\ config_cache w' = Some lc
      /\ frames w' !! d = Some f /\ length (frames w) <= d
      /\ data_cache w' <> Some d
      /\ frames w `prefix_of` frames w' /\ configs w `prefix_of` configs w').
  { intros w1 Hf1 Hg1 Hwf1 Hback Hret.
    destruct (reload_or_fall_back_returns net w1 d c w' Hwf1 Hret)
      as [(e & ld & lc & f & rs & F & Hd & Hc & Hf & -> & -> & ->)
         |(t & h & F & Hnn & -> & -> & Hfr & Hcf & Hd & Hc & _)].
    - assert (Hld : ld < length (frames w1))
        by (eapply lookup_lt_Some; exact Hf).
      exists f, lc. rewrite <- Hf1, <- Hg1. simpl.
      split; [eapply Hback; eauto|]. repeat split; auto.
      + now rewrite lookup_app_r, Nat.sub_diag by lia.
      + rewrite Hd. intros [= ->]. lia.
      + now apply prefix_app_r.
    - destruct (replaced_settles net w1 w' t h F Hnn Hfr Hcf Hd Hc)
        as (Hs & Hl & Hne & Hp1 & Hp2).
      exists t, (length (configs w1)). rewrite <- Hf1, <- Hg1.
      repeat split; auto; apply Hs. }
  destruct (data_cache w) as [ld|] eqn:Hd;
    [destruct (config_cache w) as [lc|] eqn:Hc|].
  - (* both caches set: the check runs *)
    destruct (check_for_updates net w) as [b w1] eqn:E.
    destruct (checked_world net w b w1 E)
      as (_ & Hd1 & Hc1 & Hf1 & Hg1 & Hh1 & Hh2).
    rewrite Hd in Hd1. rewrite Hc in Hc1.
    assert (Hwf1 : wf w1).
    { destruct Hwf as [Ha Hb]. split; intros l Hl.
      - rewrite Hf1. apply Ha. congruence.
      - rewrite Hg1. apply Hb. congruence. }
    assert (Hback : forall ld' lc' f rs,
      data_cache w1 = Some ld' -> config_cache w1 = Some lc' ->
      frames w1 !! ld' = Some f ->
      settled net (set_frames (frames w1 ++ [f]) (sent rs w1)) f).
    { intros ld' lc' f rs Hd' Hc' Hf'.
      apply (copied_settles net w1 ld' lc' f); auto.
      apply Hwf1. exact Hc'. }
    destruct b; [now apply (Hfresh w1)|]. clear Hfresh.
    destruct (wf_frame w1 ld Hwf1 Hd1) as [f Hf].
    rewrite (return_cached_copies w1 ld f Hd1 Hf) in Hload.
    injection Hload as <- <- <-.
    assert (Hlc : lc < length (configs w1)) by (apply Hwf1; exact Hc1).
    destruct (copied_settles net w1 ld lc f Hd1 Hc1 Hf Hlc Hh1 Hh2 [])
      as (Hs & Hl & Hne).
    rewrite sent_nil in Hs.
    exists f, lc. rewrite <- Hf1, <- Hg1. split; [exact Hs|]. simpl.
    repeat split; auto. now apply prefix_app_r.
  - (* no configuration cached *)
    apply (Hfresh w); auto. intros; congruence.
  - (* no table cached *)
    apply (Hfresh w); auto. intros; congruence.
Qed.

(** From a settled loader a load on the same network returns, and the
    loader stays settled on the same table value.  The table returned is
    a new object; the cached table is the former one or a newer one. *)
Lemma load_settled net w f :
  settled net w f ->
  exists d lc w',
    load_data_with_cache net w = (inr (d, Some lc), w')
    /\ settled net w' f
    /\ frames w' !! d = Some f
    /\ length (frames w) <= d
    /\ frames w `prefix_of` frames w'
    /\ (exists l, data_cache w' = Some l /\ l <> d
                  /\ (data_cache w = Some l \/ length (frames w) <= l)).
Proof.
  intros ((ld & Hd & Hf) & (lc & Hc & Hlc) & Hab).
  assert (Hld : ld < length (frames w)) by (eapply lookup_lt_Some; exact Hf).
  unfold load_data_with_cache. rewrite Hd, Hc.
  destruct (check_for_updates net w) as [b w1] eqn:E.
  destruct (checked_world net w b w1 E)
    as (Hb & Hd1 & Hc1 & Hf1 & Hg1 & Hh1 & Hh2).
  rewrite Hd in Hd1. rewrite Hc in Hc1. rewrite <- Hf1, <- Hg1 in *.
  destruct b.
  - destruct Hab as [[Ha1 Ha2] | (h & F & Hnn)].
    { rewrite (check_for_updates_settled net w Ha1 Ha2) in Hb. discriminate. }
    destruct (reload_replaces net w1 f h F Hnn)
      as (w2 & Hr & Hfr & Hcf & Hd2 & Hc2 & _).
    destruct (replaced_settles net w1 w2 f h F Hnn Hfr Hcf Hd2 Hc2)
      as (Hs & Hl & Hne & Hp & _).
    exists (S (length (frames w1))), (length (configs w1)), w2.
    repeat (split; [assumption || lia|]).
    exists (length (frames w1)). split; [exact Hd2|]. split; [lia|now right].
  - rewrite (return_cached_copies w1 ld f Hd1 Hf), Hc1.
    destruct (copied_settles net w1 ld lc f Hd1 Hc1 Hf Hlc Hh1 Hh2 [])
      as (Hs & Hl & Hne).
    rewrite sent_nil in Hs.
    exists (length (frames w1)), lc, (set_frames (frames w1 ++ [f]) w1).
    split; [reflexivity|]. split; [exact Hs|]. split; [exact Hl|].
    split; [lia|]. split; [now apply prefix_app_r|].
    exists ld. split; [exact Hd1|]. split; [lia|now left].
Qed.

Lemma settled_cache_frame net w f :
  settled net w f -> frame_at w (data_cache w) = Some f.
Proof. intros ((l & -> & Hf) & _). exact Hf. Qed.

Lemma settled_mutate_frame net w f l g :
  settled net w f -> data_cache w <> Some l ->
  settled net (mutate_frame l g w) f.
Proof.
  intros ((ld & Hd & Hf) & Hc & Hab) Hne. split; [|split].
  - exists ld. split; [exact Hd|]. simpl.
    rewrite list_lookup_insert_ne; [exact Hf|congruence].
  - exact Hc.
  - exact Hab.
Qed.

(** C5: after a load has returned, a second load on an unchanged network
    returns too; the two tables have the same value, which is also the
    value of the cached table, and they are different objects, both
    different from the cached one: writing to either leaves the other and
    the cache as they were, also when the first table is written to
    before the second call. *)
Theorem load_twice_independent_copies net w d1 c1 w1 :
  wf w ->
  load_data_with_cache net w = (inr (d1, c1), w1) ->
  exists f,
    frames w1 !! d1 = Some f
    /\ frame_at w1 (data_cache w1) = Some f
    /\ (exists d2 c2 w2,
          load_data_with_cache net w1 = (inr (d2, c2), w2)
          /\ d2 <> d1
          /\ frames w2 !! d1 = Some f
          /\ frames w2 !! d2 = Some f
          /\ frame_at w2 (data_cache w2) = Some f
          /\ (forall g,
                frames (mutate_frame d1 g w2) !! d2 = Some f
                /\ frame_at (mutate_frame d1 g w2) (data_cache w2) = Some f)
          /\ (forall g,
                frames (mutate_frame d2 g w2) !! d1 = Some f
                /\ frame_at (mutate_frame d2 g w2) (data_cache w2) = Some f))
    /\ (forall g, exists d2 c2 w2,
          load_data_with_cache net (mutate_frame d1 g w1) = (inr (d2, c2), w2)
          /\ d2 <> d1
          /\ frames w2 !! d1 = Some g
          /\ frames w2 !! d2 = Some f
          /\ frame_at w2 (data_cache w2) = Some f).
Proof.
  intros Hwf Hload.
  destruct (load_settles net w d1 c1 w1 Hwf Hload)
    as (f & lc & Hs & -> & Hc1 & Hd1 & _ & Hne1 & _ & _).
  assert (Hlt : d1 < length (frames w1)) by (eapply lookup_lt_Some; exact Hd1).
  exists f. split; [exact Hd1|]. split; [eapply settled_cache_frame; exact Hs|].
  split.
  - destruct (load_settled net w1 f Hs)
      as (d2 & lc2 & w2 & Hl2 & Hs2 & Hd2 & Hge & Hpre & l2 & Hdc2 & Hne2 & Hor).
    assert (Hcache := settled_cache_frame net w2 f Hs2).
    assert (Hl1ne : l2 <> d1).
    { destruct Hor as [Hsame | Hnew]; [congruence|lia]. }
    assert (Hd1' : frames w2 !! d1 = Some f).
    { eapply prefix_lookup_Some; [exact Hd1|exact Hpre]. }
    exists d2, (Some lc2), w2. split; [exact Hl2|].
    split; [lia|]. split; [exact Hd1'|].
    split; [exact Hd2|]. split; [exact Hcache|].
    rewrite Hdc2 in *. simpl in Hcache.
    split; intros g; simpl.
    + rewrite !list_lookup_insert_ne by (congruence || lia). now split.
    + rewrite !list_lookup_insert_ne by (congruence || lia). now split.
  - intros g.
    assert (Hs' := settled_mutate_frame net w1 f d1 g Hs Hne1).
    destruct (load_settled net _ f Hs')
      as (d2 & lc2 & w2 & Hl2 & Hs2 & Hd2 & Hge & Hpre & _).
    exists d2, (Some lc2), w2. split; [exact Hl2|].
    simpl in Hge. rewrite length_insert in Hge.
    split; [lia|]. split; [|split; [exact Hd2|]].
    + eapply prefix_lookup_Some; [|exact Hpre]. simpl.
      now apply list_lookup_insert_eq.
    + eapply settled_cache_frame; exact Hs2.
Qed.



(** ** Forced refresh *)

Lemma return_cached_requests w :
  requests (snd (return_cached w)) = requests w.
Proof.
  unfold return_cached, bind, copy_frame, ret.
  destruct (data_cache w) as [l|]; [|reflexivity].
  now destruct (frames w !! l).
Qed.

Lemma install_requests table hives w :
  exists w', install table hives w = (inr tt, w')
             /\ requests w' = requests w.
Proof.
  unfold install, bind, new_frame, new_config, modify.
  destruct hives; eauto.
Qed.

Lemma reload_requests net w :
  requests (snd (reload net w)) = requests w ++ raw_requests net.
Proof.
  unfold reload, raw_requests, bind. rewrite load_json_from_github_eq.
  destruct (parsed net beehive_data) as [e1|data]; [reflexivity|].
  rewrite load_json_from_github_eq, sent_sent.
  destruct (parsed net hives_config) as [e2|hives]; [reflexivity|].
  unfold lift at 1.
  destruct (build_frame data) as [e3|table]; [reflexivity|].
  destruct (install_requests table hives
              (sent ([GetRaw beehive_data] ++ [GetRaw hives_config]) w))
    as (w' & -> & Hreq).
  unfold lift, ret. destruct (py_len hives); simpl; exact Hreq.
Qed.

Lemma reload_or_fall_back_requests net w :
  requests (snd (reload_or_fall_back net w)) = requests w ++ raw_requests net.
Proof.
  unfold reload_or_fall_back.
  pose proof (reload_requests net w) as Hreq.
  destruct (reload net w) as [[e|[]] w1]; simpl in Hreq.
  - destruct (data_cache w1); [destruct (config_cache w1)|]; simpl;
      rewrite ?return_cached_requests; exact Hreq.
  - now rewrite return_cached_requests.
Qed.

(** With the cache cleared the check is skipped and the reload branch
    runs. *)
Lemma load_on_empty_cache net w :
  data_cache w = None \/ config_cache w = None ->
  load_data_with_cache net w = reload_or_fall_back net w.
Proof.
  intros Hempty. unfold load_data_with_cache.
  destruct Hempty as [-> | ->]; [reflexivity|].
  now destruct (data_cache w).
Qed.

(** The world in which [refresh_data] starts its load: the cache is
    cleared (lines 223-224) and monitoring is on (lines 179-180). *)
Lemma refresh_data_eq net w :
  refresh_data net w =
    match reload_or_fall_back net
            (if negb (monitoring w) then start_monitoring (set_cache None None w)
             else set_cache None None w) with
    | (inr r, w') => (inr r, w')
    | (inl e, w') => (inl (reraised e), w')
    end.
Proof.
  unfold refresh_data, load_beehive_data_from_json.
  change (monitoring (set_cache None None w)) with (monitoring w).
  rewrite load_on_empty_cache; [reflexivity|].
  left. unfold start_monitoring. simpl. now destruct (monitoring w).
Qed.

Lemma refresh_start_fields w :
  let w0 := if negb (monitoring w) then start_monitoring (set_cache None None w)
            else set_cache None None w in
  data_cache w0 = None /\ config_cache w0 = None
  /\ frames w0 = frames w /\ configs w0 = configs w
  /\ requests w0 = requests w
  /\ last_data_hash w0 = last_data_hash w
  /\ last_config_hash w0 = last_config_hash w.
Proof.
  unfold start_monitoring. simpl. destruct (monitoring w); simpl; auto 10.
Qed.

(** C6, as the code has it: [refresh_data] clears the cache and, without
    asking for a fingerprint, requests the data file; it requests the
    configuration file when the data file was fetched and decoded, and
    not otherwise.  When it returns, the table and the configuration it
    returns are the ones just fetched, held in objects that did not exist
    before the call. *)
Theorem refresh_data_fetches net w :
  requests (snd (refresh_data net w)) = requests w ++ raw_requests net
  /\ (forall d c,
        fst (refresh_data net w) = inr (d, c) ->
        exists table hives lc,
          fetched net = inr (table, hives)
          /\ frames (snd (refresh_data net w)) !! d = Some table
          /\ c = Some lc
          /\ configs (snd (refresh_data net w)) !! lc = Some hives
          /\ length (frames w) <= d
          /\ length (configs w) <= lc).
Proof.
  rewrite refresh_data_eq.
  destruct (refresh_start_fields w) as (Hd & Hc & Hf & Hg & Hr & _).
  set (w0 := if negb (monitoring w) then _ else _) in *.
  pose proof (reload_or_fall_back_requests net w0) as Hreq.
  destruct (reload_or_fall_back net w0) as [[e|[d' c']] w1] eqn:E; simpl in *.
  - split; [congruence|]. discriminate.
  - split; [congruence|]. intros d c [= <- <-].
    assert (Hwf : wf w0) by (split; intros l Hl; congruence).
    destruct (reload_or_fall_back_returns net w0 d' c' w1 Hwf E)
      as [(e & ld & _ & _ & _ & _ & Hbad & _)
         |(t & h & F & Hnn & -> & -> & Hfr & Hcf & _)]; [congruence|].
    exists t, h, (length (configs w0)). rewrite Hfr, Hcf, Hf, Hg.
    split; [exact F|]. split; [|split; [reflexivity|split; [|lia]]].
    + rewrite lookup_app_r by lia.
      now replace (S (length (frames w)) - length (frames w)) with 1 by lia.
    + now rewrite lookup_app_r, Nat.sub_diag by lia.
Qed.

(** C10: when the downloads, the decoding or the conversion fail,
    [refresh_data] raises, and both cache fields are [None] whatever they
    held before.  The next load skips the fingerprint check and runs the
    reload branch, as a first load does: if that fails too it raises. *)
Theorem refresh_data_failure_empties_cache net w e :
  fetched net = inl e ->
  exists w',
    refresh_data net w = (inl (reraised e), w')
    /\ data_cache w' = None
    /\ config_cache w' = None
    /\ forall net2,
         load_data_with_cache net2 w' = reload_or_fall_back net2 w'
         /\ requests (snd (load_data_with_cache net2 w'))
            = requests w' ++ raw_requests net2
         /\ forall e2, fetched net2 = inl e2 ->
                       fst (load_data_with_cache net2 w') = inl e2.
Proof.
  intros Hfail. rewrite refresh_data_eq.
  destruct (refresh_start_fields w) as (Hd & Hc & _).
  set (w0 := if negb (monitoring w) then _ else _) in *.
  destruct (fall_back_empty net w0 e Hfail) as (rs & -> & _); [now left|].
  exists (sent rs w0). split; [reflexivity|].
  split; [exact Hd|]. split; [exact Hc|].
  intros net2.
  assert (Hempty : data_cache (sent rs w0) = None
                   \/ config_cache (sent rs w0) = None) by (left; exact Hd).
  rewrite (load_on_empty_cache net2 _ Hempty).
  split; [reflexivity|]. split; [apply reload_or_fall_back_requests|].
  intros e2 Hfail2.
  now destruct (fall_back_empty net2 (sent rs w0) e2 Hfail2 Hempty)
    as (rs2 & -> & _).
Qed.

(** ** Metadata *)

Lemma collect_info_world net w :
  exists rs, snd (collect_info net w) = sent rs w.
Proof.
  unfold collect_info, bind. rewrite load_json_from_github_eq.
  destruct (parsed net beehive_data) as [e|data]; [eauto|].
  rewrite load_json_from_github_eq, sent_sent.
  destruct (parsed net hives_config) as [e|hives]; [eauto|].
  unfold lift.
  destruct (py_iter data) as [e|items]; [eauto|].
  destruct (subscript_all items "timestamp") as [e|timestamps]; [eauto|].
  destruct (py_min timestamps) as [e|start_date]; [eauto|].
  destruct (py_max timestamps) as [e|end_date]; [eauto|].
  destruct (py_len data) as [e|total]; [eauto|].
  destruct (py_len hives) as [e|count]; [eauto|].
  destruct (py_iter hives) as [e|hive_items]; [eauto|].
  destruct (subscript_all hive_items "name") as [e|names]; eauto.
Qed.

(** C7: [get_data_info] leaves the cached table, the cached
    configuration and the recorded fingerprints as they were, and every
    stored object too, whether it returns the dictionary or the text of
    an error; it only sends requests. *)
Theorem get_data_info_keeps_cache net w :
  data_cache (snd (get_data_info net w)) = data_cache w
  /\ config_cache (snd (get_data_info net w)) = config_cache w
  /\ last_data_hash (snd (get_data_info net w)) = last_data_hash w
  /\ last_config_hash (snd (get_data_info net w)) = last_config_hash w
  /\ frames (snd (get_data_info net w)) = frames w
  /\ configs (snd (get_data_info net w)) = configs w
  /\ monitoring (snd (get_data_info net w)) = monitoring w
  /\ monitor_threads (snd (get_data_info net w)) = monitor_threads w.
Proof.
  assert (Hw : exists rs, snd (get_data_info net w) = sent rs w).
  { destruct (collect_info_world net w) as [rs Hrs]. exists rs.
    unfold get_data_info. now destruct (collect_info net w) as [[e|i] w']. }
  destruct Hw as [rs ->]. repeat split.
Qed.

(** ** The poller *)

Lemma start_monitoring_active w :
  monitoring w = true -> start_monitoring w = w.
Proof. intros H. unfold start_monitoring. now rewrite H. Qed.

Lemma start_monitoring_sets_flag w : monitoring (start_monitoring w) = true.
Proof.
  unfold start_monitoring. destruct (monitoring w) eqn:E; [exact E|reflexivity].
Qed.

Lemma start_monitoring_idempotent w :
  start_monitoring (start_monitoring w) = start_monitoring w.
Proof. apply start_monitoring_active, start_monitoring_sets_flag. Qed.

Lemma start_monitoring_launches w :
  monitor_threads (start_monitoring w)
  = if monitoring w then monitor_threads w else S (monitor_threads w).
Proof. unfold start_monitoring. now destruct (monitoring w). Qed.

Lemma stop_monitoring_idempotent w :
  stop_monitoring (stop_monitoring w) = stop_monitoring w.
Proof. reflexivity. Qed.

Lemma stop_monitoring_only_flag w :
  stop_monitoring w = set_monitoring false w
  /\ monitor_threads (stop_monitoring w) = monitor_threads w.
Proof. split; reflexivity. Qed.

(** A monitor thread leaves its loop only when it finds the flag clear. *)
Lemma monitor_loop_while_active net w :
  monitoring w = true ->
  monitoring (monitor_loop net w) = true
  /\ monitor_threads (monitor_loop net w) = monitor_threads w.
Proof.
  intros Hm. unfold monitor_loop.
  destruct (monitor_threads w) as [|n] eqn:Ht; [now rewrite Ht|].
  rewrite Hm, check_for_updates_world. simpl. now rewrite Ht.
Qed.

Lemma run_monitor_while_active nets w :
  monitoring w = true ->
  monitoring (run_monitor nets w) = true
  /\ monitor_threads (run_monitor nets w) = monitor_threads w.
Proof.
  revert w. induction nets as [|net nets IH]; intros w Hm; [now split|].
  destruct (monitor_loop_while_active net w Hm) as [Hm' Ht'].
  destruct (IH (monitor_loop net w) Hm') as [H1 H2].
  simpl. split; [exact H1|congruence].
Qed.

(** C8, where the code departs from it: [start_monitoring],
    [stop_monitoring], [start_monitoring] in a row, before the first
    thread has come back to the head of its loop, leaves two monitor
    threads, and both stay in their loops however long they run. *)
Theorem restart_runs_two_monitor_loops :
  let w := start_monitoring (stop_monitoring (start_monitoring init)) in
  monitoring w = true
  /\ monitor_threads w = 2
  /\ forall nets, monitor_threads (run_monitor nets w) = 2.
Proof.
  intros w. split; [reflexivity|]. split; [reflexivity|].
  intros nets. now destruct (run_monitor_while_active nets w eq_refl).
Qed.

(** ** Well-formed worlds *)

Lemma wf_init : wf init.
Proof. split; intros l Hl; discriminate. Qed.

Lemma settled_wf net w f : settled net w f -> wf w.
Proof.
  intros ((ld & Hd & Hf) & (lc & Hc & Hlt) & _). split; intros l Hl.
  - assert (l = ld) by congruence. subst l. eapply lookup_lt_Some; exact Hf.
  - assert (l = lc) by congruence. now subst l.
Qed.

(** Every load that returns leaves a well-formed world. *)
Lemma wf_load net w r w' :
  wf w -> load_data_with_cache net w = (inr r, w') -> wf w'.
Proof.
  intros Hwf Hload. destruct r as [d c].
  destruct (load_settles net w d c w' Hwf Hload) as (f & lc & Hs & _).
  eapply settled_wf; exact Hs.
Qed.

End Properties.

(** ** The loader on concrete inputs *)

Example strip_spaces : strip "  a b \n"%string <> EmptyString
                       /\ strip "   " = EmptyString.
Proof. split; [discriminate|reflexivity]. Qed.

Example first_load_fetches :
  fst (load_data_with_cache steady (@init toy)) = inr (1, Some 0)
  /\ requests (snd (load_data_with_cache steady (@init toy)))
     = [GetRaw beehive_data; GetRaw hives_config].
Proof. split; reflexivity. Qed.

Example warm_load_checks_only :
  fst (load_data_with_cache steady warm) = inr (1, Some 0)
  /\ requests (snd (load_data_with_cache steady warm))
     = [GetContents beehive_data; GetContents hives_config].
Proof. split; reflexivity. Qed.

Example warm_load_reloads :
  fst (load_data_with_cache moved warm) = inr (2, Some 1)
  /\ frames (snd (load_data_with_cache moved warm)) !! 2 = Some []
  /\ data_cache (snd (load_data_with_cache moved warm)) = Some 1.
Proof. repeat split; reflexivity. Qed.

(** The fingerprint of the configuration changed and the file holds
    [null]: the load raises although a cache was there, and the cache is
    left with the new table and no configuration. *)
Example null_config_tears_cache :
  fst (load_data_with_cache null_config warm) = inl TypeError
  /\ data_cache (snd (load_data_with_cache null_config warm)) = Some 1
  /\ config_cache (snd (load_data_with_cache null_config warm)) = None.
Proof. repeat split; reflexivity. Qed.

Lemma wf_warm : wf warm.
Proof. split; intros l [= <-]; simpl; lia. Defined.

(** C1 as the specification words it does not hold: the repository did
    not change and the lookup of one fingerprint was refused, so that
    [None] is observed against the recorded a1; the check returns
    [True]. *)
Lemma check_for_updates_none_observed_reports_change :
  observed lookup_refused beehive_data = None
  /\ observed lookup_refused hives_config = last_config_hash warm
  /\ fst (check_for_updates lookup_refused warm) = true.
Proof. repeat split; reflexivity. Qed.

Lemma check_for_updates_records_witness :
  (observed steady beehive_data = Some "a1"
   /\ observed steady hives_config = Some "b1"
   /\ observed moved beehive_data = Some "a2"
   /\ observed moved hives_config = Some "b1")
  /\ fst (check_for_updates steady
            (snd (check_for_updates steady (@init toy)))) = false
  /\ fst (check_for_updates moved
            (snd (check_for_updates steady
                    (snd (check_for_updates steady (@init toy)))))) = true
  /\ last_data_hash
       (snd (check_for_updates moved
               (snd (check_for_updates steady
                       (snd (check_for_updates steady (@init toy)))))))
     = Some "a2"
  /\ last_config_hash
       (snd (check_for_updates moved
               (snd (check_for_updates steady
                       (snd (check_for_updates steady (@init toy)))))))
     = Some "b1".
Proof.
  split; [repeat split; reflexivity|].
  exact (proj2 (@check_for_updates_records toy) steady steady moved init
           eq_refl eq_refl eq_refl eq_refl eq_refl eq_refl).
Defined.

Lemma load_falls_back_to_cache_witness :
  wf warm
  /\ fst (check_for_updates moved_but_down warm) = true
  /\ @fetched toy moved_but_down = inl PlainException
  /\ exists f w',
       frames warm !! 0 = Some f
       /\ load_data_with_cache moved_but_down warm
          = (inr (length (frames warm), Some 0), w')
       /\ frames w' !! length (frames warm) = Some f
       /\ frames w' = frames warm ++ [f]
       /\ configs w' = configs warm
       /\ data_cache w' = Some 0
       /\ config_cache w' = Some 0.
Proof.
  split; [exact wf_warm|]. split; [reflexivity|]. split; [reflexivity|].
  exact (load_falls_back_to_cache moved_but_down warm 0 0 PlainException
           wf_warm eq_refl eq_refl eq_refl eq_refl).
Defined.

Lemma load_raises_on_empty_cache_witness :
  @fetched toy gone = inl FileNotFoundError
  /\ exists w',
       load_data_with_cache gone (@init toy) = (inl FileNotFoundError, w')
       /\ data_cache w' = data_cache (@init toy)
       /\ config_cache w' = config_cache (@init toy)
       /\ (data_cache w' = None \/ config_cache w' = None)
       /\ frames w' = frames (@init toy)
       /\ configs w' = configs (@init toy).
Proof.
  split; [reflexivity|].
  exact (load_raises_on_empty_cache gone init FileNotFoundError
           (or_introl eq_refl) eq_refl).
Defined.

Lemma load_twice_independent_copies_witness :
  wf (@init toy)
  /\ load_data_with_cache steady (@init toy)
     = (inr (1, Some 0), snd (load_data_with_cache steady (@init toy)))
  /\ exists f,
       frames (snd (load_data_with_cache steady (@init toy))) !! 1 = Some f.
Proof.
  split; [exact wf_init|]. split; [reflexivity|].
  destruct (load_twice_independent_copies steady (@init toy) 1 (Some 0)
              (snd (load_data_with_cache steady (@init toy)))
              wf_init eq_refl) as (f & Hf & _).
  exists f. exact Hf.
Defined.


(** C6 as the specification words it does not hold: the raw host has no
    data file, and [refresh_data] raises after one request; the
    configuration file is never asked for. *)
Lemma refresh_data_skips_config_fetch :
  fst (refresh_data gone warm) = inl FileNotFoundError
  /\ requests (snd (refresh_data gone warm)) = [GetRaw beehive_data]
  /\ ~ In (GetRaw hives_config) (requests (snd (refresh_data gone warm))).
Proof.
  split; [reflexivity|]. split; [reflexivity|].
  simpl. intros [H | []]. discriminate H.
Qed.

Lemma refresh_data_failure_empties_cache_witness :
  @fetched toy gone = inl FileNotFoundError
  /\ data_cache warm = Some 0
  /\ exists w',
       refresh_data gone warm = (inl FileNotFoundError, w')
       /\ data_cache w' = None
       /\ config_cache w' = None.
Proof.
  split; [reflexivity|]. split; [reflexivity|].
  destruct (refresh_data_failure_empties_cache gone warm FileNotFoundError
              eq_refl) as (w' & Hr & Hd & Hc & _).
  exists w'. auto.
Defined.

(** * The rest of the loader and its callers *)

(** ** Construction *)

Lemma truthy_true v :
  truthy v = true <-> exists s, v = Some s /\ s <> EmptyString.
Proof.
  destruct v as [s|]; simpl.
  - rewrite negb_true_iff, String.eqb_neq. split.
    + intros H. exists s. now split.
    + now intros (s' & [= <-] & H).
  - split; [discriminate|]. now intros (s & H & _).
Qed.

(** X1: the loader is constructed exactly when GITHUB_REPO_OWNER and
    GITHUB_REPO_NAME are both set to non-empty strings.  Otherwise the
    [ValueError] names the variables that are unset or empty, and only
    those, owner first. *)
Theorem init_requires_owner_and_name env :
  ((exists s, __init__ env = inr s)
   <-> (exists owner name,
          env "GITHUB_REPO_OWNER" = Some owner /\ owner <> EmptyString
          /\ env "GITHUB_REPO_NAME" = Some name /\ name <> EmptyString))
  /\ (forall msg,
        __init__ env = inl msg ->
        msg = "Missing required environment variables: "
              +:+ String.concat ", "
                    (List.filter (fun v => negb (truthy (env v)))
                       ["GITHUB_REPO_OWNER"; "GITHUB_REPO_NAME"])).
Proof.
  unfold __init__. simpl.
  pose proof (truthy_true (env "GITHUB_REPO_OWNER")) as Ho.
  pose proof (truthy_true (env "GITHUB_REPO_NAME")) as Hn.
  destruct (truthy (env "GITHUB_REPO_OWNER")),
           (truthy (env "GITHUB_REPO_NAME")); simpl.
  - split; [|discriminate]. split; [intros _|eauto].
    destruct (proj1 Ho eq_refl) as (o & Eo & No).
    destruct (proj1 Hn eq_refl) as (n & En & Nn). eauto 10.
  - split; [|now intros msg [= <-]]. split; [now intros [s H]|].
    intros (o & n & _ & _ & En & Nn).
    assert (false = true) by (apply Hn; eauto). discriminate.
  - split; [|now intros msg [= <-]]. split; [now intros [s H]|].
    intros (o & n & Eo & No & _).
    assert (false = true) by (apply Ho; eauto). discriminate.
  - split; [|now intros msg [= <-]]. split; [now intros [s H]|].
    intros (o & n & Eo & No & _).
    assert (false = true) by (apply Ho; eauto). discriminate.
Qed.

Lemma init_settings env s :
  __init__ env = inr s ->
  exists owner name,
    env "GITHUB_REPO_OWNER" = Some owner /\ owner <> EmptyString
    /\ env "GITHUB_REPO_NAME" = Some name /\ name <> EmptyString
    /\ s = Settings (Some owner) (Some name) (env "GITHUB_TOKEN")
             ("https://api.github.com/repos/" +:+ owner +:+ "/" +:+ name)
             ((if truthy (env "GITHUB_TOKEN")
               then [("Authorization",
                      "token " +:+ fmt (env "GITHUB_TOKEN"))]
               else [])
              ++ [("Accept", "application/vnd.github.v3+json")]).
Proof.
  unfold __init__. simpl.
  pose proof (truthy_true (env "GITHUB_REPO_OWNER")) as Ho.
  pose proof (truthy_true (env "GITHUB_REPO_NAME")) as Hn.
  destruct (truthy (env "GITHUB_REPO_OWNER")); [|discriminate].
  destruct (truthy (env "GITHUB_REPO_NAME")); [|discriminate].
  simpl. intros [= <-].
  destruct (proj1 Ho eq_refl) as (o & Eo & No).
  destruct (proj1 Hn eq_refl) as (n & En & Nn).
  exists o, n. rewrite Eo, En. auto.
Qed.

(** X2: a constructed loader addresses the repository named by the
    environment, always sends the Accept header, and has an
    Authorization header exactly when GITHUB_TOKEN is set to a non-empty
    string, with the value "token " followed by it. *)
Theorem init_headers env s :
  __init__ env = inr s ->
  (exists owner name,
      env "GITHUB_REPO_OWNER" = Some owner
      /\ env "GITHUB_REPO_NAME" = Some name
      /\ base_url s
         = "https://api.github.com/repos/" +:+ owner +:+ "/" +:+ name)
  /\ In ("Accept", "application/vnd.github.v3+json") (headers s)
  /\ (forall value,
        In ("Authorization", value) (headers s)
        <-> exists tok, env "GITHUB_TOKEN" = Some tok /\ tok <> EmptyString
                        /\ value = "token " +:+ tok)
  /\ length (headers s) <= 2.
Proof.
  intros Hs.
  destruct (init_settings env s Hs) as (o & n & Eo & _ & En & _ & ->). simpl.
  split; [eauto|].
  pose proof (truthy_true (env "GITHUB_TOKEN")) as Ht.
  destruct (truthy (env "GITHUB_TOKEN")); simpl.
  - destruct (proj1 Ht eq_refl) as (t & Et & Nt). rewrite Et. simpl.
    split; [now right; left|]. split; [|lia].
    intros value. split.
    + intros [[= <-] | [[=] | []]]. eauto.
    + intros (t' & [= <-] & _ & ->). now left.
  - split; [now left|]. split; [|lia].
    intros value. split.
    + intros [[=] | []].
    + intros (t & Et & Nt & _).
      assert (false = true) by (apply Ht; eauto). discriminate.
Qed.

Lemma prefix_app (p rest : string) : String.prefix p (p +:+ rest) = true.
Proof.
  induction p as [|c p IH]; simpl; [now destruct rest|].
  destruct (ascii_dec c c) as [_|Hne]; [exact IH|now destruct Hne].
Qed.

Lemma append_assoc (a b c : string) : (a +:+ b) +:+ c = a +:+ (b +:+ c).
Proof.
  induction a as [|x a IH]; [reflexivity|].
  change (String x ((a +:+ b) +:+ c) = String x (a +:+ (b +:+ c))).
  now rewrite IH.
Qed.

(** X3: the credential never leaves for the raw host.  A raw download is
    sent without any header; a request that carries an Authorization
    header is addressed to the contents API of api.github.com. *)
Theorem token_only_sent_to_api env s r :
  __init__ env = inr s ->
  (forall a, request_headers (wire s (GetRaw a)) = [])
  /\ (forall value,
        In ("Authorization", value) (request_headers (wire s r)) ->
        String.prefix "https://api.github.com/repos/" (url (wire s r)) = true).
Proof.
  intros Hs. split; [reflexivity|].
  destruct r as [a|a]; [|now intros value []].
  intros value _.
  destruct (init_settings env s Hs) as (o & n & _ & _ & _ & _ & ->).
  unfold wire, url, base_url.
  rewrite append_assoc. apply prefix_app.
Qed.

(** ** The fetcher *)

Lemma lstrip_head s :
  lstrip s = EmptyString
  \/ exists c rest, lstrip s = String c rest /\ py_isspace c = false.
Proof.
  induction s as [|c s IH]; simpl; [now left|].
  destruct (py_isspace c) eqn:E; [exact IH|]. right. eauto.
Qed.

Lemma lstrip_empty s :
  lstrip s = EmptyString
  <-> forallb py_isspace (list_ascii_of_string s) = true.
Proof.
  induction s as [|c s IH]; simpl; [tauto|].
  destruct (py_isspace c); simpl; [exact IH|]. split; discriminate.
Qed.

Lemma rstrip_keeps_head c rest :
  py_isspace c = false -> rstrip (String c rest) <> EmptyString.
Proof.
  intros Hc. simpl. destruct (rstrip rest); [now rewrite Hc|discriminate].
Qed.

(** The test of line 76 rejects exactly the texts made of white space
    only, the empty text among them. *)
Lemma blank_iff content :
  String.eqb content EmptyString || String.eqb (strip content) EmptyString
  = true
  <-> forallb py_isspace (list_ascii_of_string content) = true.
Proof.
  rewrite orb_true_iff, !String.eqb_eq, <- lstrip_empty. unfold strip.
  split.
  - intros [-> | H]; [reflexivity|].
    destruct (lstrip_head content) as [E | (c & rest & E & Hc)]; [exact E|].
    rewrite E in H. now apply rstrip_keeps_head in H.
  - intros ->. now right.
Qed.

Section MoreProperties.
Context {RT : PyRuntime}.

(** X4: [load_json_from_github] returns a value exactly when the raw host
    answers 200 with a body that is not white space only and that
    [json.loads] decodes to that value. *)
Theorem load_json_from_github_returns_iff net a w value :
  fst (load_json_from_github net a w) = inr value
  <-> exists text,
        raw_host net a = RawStatus 200 text
        /\ forallb py_isspace (list_ascii_of_string text) = false
        /\ json_loads text = Some value.
Proof.
  rewrite load_json_from_github_eq. simpl. unfold parsed, raw_text, decode.
  split.
  - destruct (raw_host net a) as [e|code text]; [now destruct e|].
    destruct (code =? 200)%Z eqn:E200.
    + apply Z.eqb_eq in E200. subst code.
      destruct (_ || _) eqn:Eb; [discriminate|].
      destruct (json_loads text) as [v|] eqn:Ej; [|discriminate].
      intros [= <-]. exists text. split; [reflexivity|]. split; [|exact Ej].
      destruct (forallb _ _) eqn:Ef; [|reflexivity].
      apply blank_iff in Ef. congruence.
    + now destruct (code =? 404)%Z.
  - intros (text & -> & Hb & Hj). simpl.
    destruct (_ || _) eqn:Eb.
    + apply blank_iff in Eb. congruence.
    + now rewrite Hj.
Qed.

(** X5: the failures of the download.  [load_json_from_github] raises
    [FileNotFoundError] exactly when the raw host answers 404 or
    [requests.get] raised it; every other status but 200 and every other
    exception of [requests.get] gives a plain [Exception]; a 200 answer
    whose body is empty or white space only gives a [ValueError], before
    [json.loads] is called. *)
Theorem load_json_from_github_raises net a w :
  (fst (load_json_from_github net a w) = inl FileNotFoundError
   <-> (exists text, raw_host net a = RawStatus 404 text)
       \/ raw_host net a = RawRaise FileNotFoundError)
  /\ (forall code text,
        raw_host net a = RawStatus code text ->
        code <> 200%Z -> code <> 404%Z ->
        fst (load_json_from_github net a w) = inl PlainException)
  /\ (forall e,
        raw_host net a = RawRaise e -> e <> FileNotFoundError ->
        fst (load_json_from_github net a w) = inl PlainException)
  /\ (forall text,
        raw_host net a = RawStatus 200 text ->
        forallb py_isspace (list_ascii_of_string text) = true ->
        fst (load_json_from_github net a w) = inl ValueError).
Proof.
  rewrite load_json_from_github_eq. simpl. unfold parsed, raw_text, decode.
  split; [|split; [|split]].
  - split.
    + destruct (raw_host net a) as [e|code text].
      * destruct e; intros [=]. now right.
      * destruct (code =? 200)%Z eqn:E200.
        -- destruct (_ || _); [discriminate|].
           now destruct (json_loads text).
        -- destruct (code =? 404)%Z eqn:E404; [|discriminate].
           apply Z.eqb_eq in E404. subst code. intros _. left. eauto.
    + intros [[text ->] | ->]; reflexivity.
  - intros code text -> H200 H404.
    apply Z.eqb_neq in H200, H404. now rewrite H200, H404.
  - intros e -> Hne. now destruct e.
  - intros text -> Hblank. simpl.
    apply blank_iff in Hblank. now rewrite Hblank.
Qed.

(** ** The change detector *)

(** X6: a change is reported once.  Of two checks in a row on an
    unchanged network the second returns [False], whatever the first one
    returned, and it leaves the recorded fingerprints as the first one
    set them. *)
Theorem check_for_updates_twice net w :
  fst (check_for_updates net (snd (check_for_updates net w))) = false
  /\ last_data_hash
       (snd (check_for_updates net (snd (check_for_updates net w))))
     = last_data_hash (snd (check_for_updates net w))
  /\ last_config_hash
       (snd (check_for_updates net (snd (check_for_updates net w))))
     = last_config_hash (snd (check_for_updates net w)).
Proof.
  split; [|now rewrite !check_for_updates_world].
  apply check_for_updates_settled;
    now rewrite check_for_updates_world.
Qed.

(** X7: a check asks for the two fingerprints, the data file first, also
    when the first lookup fails, and touches neither the cache nor any
    stored object nor the monitoring flag: it never reloads. *)
Theorem check_for_updates_only_records net w :
  requests (snd (check_for_updates net w))
  = requests w ++ [GetContents beehive_data; GetContents hives_config]
  /\ data_cache (snd (check_for_updates net w)) = data_cache w
  /\ config_cache (snd (check_for_updates net w)) = config_cache w
  /\ frames (snd (check_for_updates net w)) = frames w
  /\ configs (snd (check_for_updates net w)) = configs w
  /\ monitoring (snd (check_for_updates net w)) = monitoring w
  /\ monitor_threads (snd (check_for_updates net w)) = monitor_threads w.
Proof.
  rewrite check_for_updates_world. simpl.
  rewrite <- app_assoc. repeat split.
Qed.

(** ** The cache manager *)

Lemma load_without_change_aux net w ld lc f :
  data_cache w = Some ld -> config_cache w = Some lc ->
  frames w !! ld = Some f ->
  fst (check_for_updates net w) = false ->
  exists w',
    load_data_with_cache net w = (inr (length (frames w), Some lc), w')
    /\ requests w'
       = requests w ++ [GetContents beehive_data; GetContents hives_config]
    /\ frames w' = frames w ++ [f]
    /\ configs w' = configs w
    /\ data_cache w' = Some ld
    /\ config_cache w' = Some lc.
Proof.
  intros Hd Hc Hf Hno. unfold load_data_with_cache. rewrite Hd, Hc.
  destruct (check_for_updates net w) as [b w1] eqn:E.
  simpl in Hno. subst b.
  assert (Hw1 : w1 = snd (check_for_updates net w)) by now rewrite E.
  rewrite check_for_updates_world in Hw1.
  assert (Hd1 : data_cache w1 = Some ld) by now subst w1.
  assert (Hf1 : frames w1 !! ld = Some f) by now subst w1.
  assert (Hc1 : config_cache w1 = Some lc) by now subst w1.
  rewrite (return_cached_copies w1 ld f Hd1 Hf1), Hc1.
  eexists. split; [now subst w1|]. subst w1. simpl.
  rewrite <- app_assoc. repeat split; auto.
Qed.

(** X8: with both caches set and no change reported, a load downloads
    nothing: its only requests are the two fingerprint lookups.  It
    returns a new object with the value of the cached table and the
    cached configuration, leaves the cache as it was, and has recorded
    the fingerprints it observed. *)
Theorem load_without_change net w ld lc f :
  data_cache w = Some ld -> config_cache w = Some lc ->
  frames w !! ld = Some f ->
  fst (check_for_updates net w) = false ->
  exists d w',
    load_data_with_cache net w = (inr (d, Some lc), w')
    /\ requests w'
       = requests w ++ [GetContents beehive_data; GetContents hives_config]
    /\ frames w' !! d = Some f
    /\ d <> ld
    /\ frames w' !! ld = Some f
    /\ configs w' = configs w
    /\ data_cache w' = Some ld
    /\ config_cache w' = Some lc
    /\ last_data_hash w' = observed net beehive_data
    /\ last_config_hash w' = observed net hives_config.
Proof.
  intros Hd Hc Hf Hno.
  destruct (load_without_change_aux net w ld lc f Hd Hc Hf Hno)
    as (w' & Hl & Hreq & Hfr & Hcf & Hd' & Hc').
  assert (Hlt : ld < length (frames w)) by (eapply lookup_lt_Some; exact Hf).
  exists (length (frames w)), w'. split; [exact Hl|]. split; [exact Hreq|].
  rewrite Hfr.
  split; [now rewrite lookup_app_r, Nat.sub_diag by lia|]. split; [lia|].
  split; [now rewrite lookup_app_l|].
  split; [exact Hcf|]. split; [exact Hd'|]. split; [exact Hc'|].
  unfold load_data_with_cache in Hl. rewrite Hd, Hc in Hl.
  destruct (check_for_updates net w) as [b w1] eqn:E.
  destruct (checked_world net w b w1 E)
    as (_ & Hd1 & _ & Hf1 & _ & Hh1 & Hh2).
  simpl in Hno. subst b.
  rewrite Hd in Hd1. rewrite <- Hf1 in Hf.
  rewrite (return_cached_copies w1 ld f Hd1 Hf) in Hl.
  injection Hl as _ _ <-. simpl. now split.
Qed.

(** X9: with both caches set, a change reported, both files fetched and
    a configuration that is not [null], a load replaces the table and
    the configuration together by new objects, returns a copy of the new
    table and the new configuration, and sends four requests: the two
    lookups, then the two downloads.  The objects that existed before
    are not written to. *)
Theorem load_reloads_on_change net w ld lc table hives :
  data_cache w = Some ld -> config_cache w = Some lc ->
  fst (check_for_updates net w) = true ->
  fetched net = inr (table, hives) -> hives <> JNull ->
  exists w',
    load_data_with_cache net w
      = (inr (S (length (frames w)), Some (length (configs w))), w')
    /\ frames w' = frames w ++ [table; table]
    /\ configs w' = configs w ++ [hives]
    /\ data_cache w' = Some (length (frames w))
    /\ config_cache w' = Some (length (configs w))
    /\ requests w'
       = requests w ++ [GetContents beehive_data; GetContents hives_config;
                        GetRaw beehive_data; GetRaw hives_config].
Proof.
  intros Hd Hc Hyes F Hnn. unfold load_data_with_cache. rewrite Hd, Hc.
  destruct (check_for_updates net w) as [b w1] eqn:E.
  simpl in Hyes. subst b.
  assert (Hw1 : w1 = snd (check_for_updates net w)) by now rewrite E.
  rewrite check_for_updates_world in Hw1.
  destruct (reload_replaces net w1 table hives F Hnn)
    as (w2 & Hr & Hfr & Hcf & Hd2 & Hc2 & _ & _ & Hreq).
  exists w2. subst w1. simpl in *. rewrite Hr.
  repeat split; auto. rewrite Hreq, <- !app_assoc. reflexivity.
Qed.

(** X10: a configuration file that holds [null] tears the cache.  When
    the reload branch runs and both files are fetched, the table is
    replaced, the configuration field becomes [None] and the [TypeError]
    of line 132 reaches the caller, also when a full cache was there
    before; the next load skips the check and downloads again. *)
Theorem load_null_config_tears_cache net w table :
  data_cache w = None \/ config_cache w = None
  \/ fst (check_for_updates net w) = true ->
  fetched net = inr (table, JNull) ->
  exists w',
    load_data_with_cache net w = (inl TypeError, w')
    /\ data_cache w' = Some (length (frames w))
    /\ frames w' = frames w ++ [table]
    /\ config_cache w' = None
    /\ configs w' = configs w
    /\ forall net2,
         load_data_with_cache net2 w' = reload_or_fall_back net2 w'.
Proof.
  intros Hrun F.
  assert (Hbranch : exists w1,
    load_data_with_cache net w = reload_or_fall_back net w1
    /\ frames w1 = frames w /\ configs w1 = configs w).
  { unfold load_data_with_cache.
    destruct (data_cache w) as [ld|] eqn:Hd; [|eauto].
    destruct (config_cache w) as [lc|] eqn:Hc; [|eauto].
    destruct Hrun as [? | [? | Hyes]]; [discriminate..|].
    destruct (check_for_updates net w) as [b w1] eqn:E.
    simpl in Hyes. subst b. exists w1.
    destruct (checked_world net w true w1 E) as (_ & _ & _ & Hf & Hg & _).
    auto. }
  destruct Hbranch as (w1 & -> & Hf1 & Hg1).
  unfold reload_or_fall_back.
  rewrite (reload_installs net w1 table JNull F), install_null. simpl.
  eexists. split; [reflexivity|]. simpl. rewrite Hf1, Hg1.
  repeat split; auto.
Qed.

(** X11: the first check after start-up reports nothing.  After a first
    load on a loader that has recorded no fingerprint, the next load
    downloads nothing and serves the cache, on whatever network: a
    change made upstream between the two calls goes unnoticed. *)
Theorem first_load_then_no_reload net w d c w1 :
  wf w ->
  data_cache w = None \/ config_cache w = None ->
  last_data_hash w = None -> last_config_hash w = None ->
  load_data_with_cache net w = (inr (d, c), w1) ->
  forall net2, exists d2 w2,
    load_data_with_cache net2 w1 = (inr (d2, c), w2)
    /\ requests w2
       = requests w1 ++ [GetContents beehive_data; GetContents hives_config]
    /\ frames w2 !! d2 = frames w1 !! d
    /\ data_cache w2 = data_cache w1
    /\ config_cache w2 = config_cache w1.
Proof.
  intros Hwf Hempty Hh1 Hh2 Hload net2.
  rewrite (load_on_empty_cache net w Hempty) in Hload.
  destruct (reload_or_fall_back_returns net w d c w1 Hwf Hload)
    as [(e & ld & lc & _ & _ & _ & Hd & Hc & _)
       |(t & h & F & Hnn & -> & -> & Hfr & Hcf & Hd & Hc & Hh1' & Hh2')].
  { destruct Hempty; congruence. }
  assert (Hf : frames w1 !! length (frames w) = Some t).
  { rewrite Hfr. now rewrite lookup_app_r, Nat.sub_diag by lia. }
  assert (Hno : fst (check_for_updates net2 w1) = false).
  { apply check_for_updates_first; congruence. }
  destruct (load_without_change_aux net2 w1 _ _ t Hd Hc Hf Hno)
    as (w2 & Hl & Hreq & Hfr2 & _ & Hd2 & Hc2).
  exists (length (frames w1)), w2. rewrite Hl.
  split; [reflexivity|]. split; [exact Hreq|].
  split; [|split; [now rewrite Hd2, Hd|now rewrite Hc2, Hc]].
  rewrite Hfr2, lookup_app_r, Nat.sub_diag by lia. simpl.
  rewrite Hfr, lookup_app_r by lia.
  now replace (S (length (frames w)) - length (frames w)) with 1 by lia.
Qed.

(** X12: a monitor pass uses up the change it sees.  With monitoring on
    and a full cache, once a monitor thread has run its check on a
    network, a load on that network downloads nothing and returns the
    value of the table cached before, also when the pass saw new
    fingerprints: the poller records them and nobody reloads. *)
Theorem monitor_pass_hides_change net w ld lc f :
  monitoring w = true -> monitor_threads w <> 0 ->
  data_cache w = Some ld -> config_cache w = Some lc ->
  frames w !! ld = Some f ->
  exists d w',
    load_data_with_cache net (monitor_loop net w) = (inr (d, Some lc), w')
    /\ frames w' !! d = Some f
    /\ data_cache w' = Some ld
    /\ frames w' !! ld = Some f
    /\ requests w'
       = requests w ++ [GetContents beehive_data; GetContents hives_config;
                        GetContents beehive_data; GetContents hives_config].
Proof.
  intros Hm Ht Hd Hc Hf.
  assert (Hpass : monitor_loop net w = snd (check_for_updates net w)).
  { unfold monitor_loop. destruct (monitor_threads w); [easy|]. now rewrite Hm. }
  rewrite Hpass.
  assert (Hno : fst (check_for_updates net (snd (check_for_updates net w)))
                = false).
  { apply check_for_updates_settled; now rewrite check_for_updates_world. }
  assert (Hreq : requests (snd (check_for_updates net w))
                 = requests w ++ [GetContents beehive_data;
                                  GetContents hives_config]).
  { rewrite check_for_updates_world. simpl. now rewrite <- app_assoc. }
  assert (Hd1 : data_cache (snd (check_for_updates net w)) = Some ld)
    by now rewrite check_for_updates_world.
  assert (Hc1 : config_cache (snd (check_for_updates net w)) = Some lc)
    by now rewrite check_for_updates_world.
  assert (Hf1 : frames (snd (check_for_updates net w)) = frames w)
    by now rewrite check_for_updates_world.
  assert (Hf' : frames (snd (check_for_updates net w)) !! ld = Some f)
    by now rewrite Hf1.
  destruct (load_without_change_aux net _ ld lc f Hd1 Hc1 Hf' Hno)
    as (w' & Hl & Hreq' & Hfr & _ & Hd' & _).
  exists (length (frames (snd (check_for_updates net w)))), w'.
  split; [exact Hl|]. rewrite Hfr, Hf1.
  assert (Hlt : ld < length (frames w)) by (eapply lookup_lt_Some; exact Hf).
  split; [now rewrite lookup_app_r, Nat.sub_diag by lia|].
  split; [exact Hd'|]. split; [now rewrite lookup_app_l|].
  rewrite Hreq', Hreq, <- app_assoc. reflexivity.
Qed.

Lemma return_cached_world w :
  snd (return_cached w) = w
  \/ exists f, snd (return_cached w) = set_frames (frames w ++ [f]) w.
Proof.
  unfold return_cached, bind, copy_frame, ret.
  destruct (data_cache w) as [l|]; [|now left].
  destruct (frames w !! l) as [f|]; [right; eauto|now left].
Qed.

(** What the reload branch can do to the world, whatever it returns. *)
Lemma reload_or_fall_back_frame net w :
  monitoring (snd (reload_or_fall_back net w)) = monitoring w
  /\ monitor_threads (snd (reload_or_fall_back net w)) = monitor_threads w
  /\ last_data_hash (snd (reload_or_fall_back net w)) = last_data_hash w
  /\ last_config_hash (snd (reload_or_fall_back net w)) = last_config_hash w
  /\ (wf w -> wf (snd (reload_or_fall_back net w)))
  /\ (data_cache (snd (reload_or_fall_back net w)) = data_cache w
      /\ config_cache (snd (reload_or_fall_back net w)) = config_cache w
      \/ (exists l, data_cache (snd (reload_or_fall_back net w)) = Some l
                    /\ length (frames w) <= l)
         /\ (config_cache (snd (reload_or_fall_back net w)) = None
             \/ exists l,
                  config_cache (snd (reload_or_fall_back net w)) = Some l
                  /\ length (configs w) <= l)).
Proof.
  assert (Hcopy : forall w1 : world,
    monitoring w1 = monitoring w -> monitor_threads w1 = monitor_threads w ->
    last_data_hash w1 = last_data_hash w ->
    last_config_hash w1 = last_config_hash w ->
    (wf w -> wf w1) ->
    (forall f, wf w -> wf (set_frames (frames w1 ++ [f]) w1)) ->
    (data_cache w1 = data_cache w /\ config_cache w1 = config_cache w
     \/ (exists l, data_cache w1 = Some l /\ length (frames w) <= l)
        /\ (config_cache w1 = None
            \/ exists l, config_cache w1 = Some l
                         /\ length (configs w) <= l)) ->
    forall w2, (w2 = w1 \/ exists f, w2 = set_frames (frames w1 ++ [f]) w1) ->
    monitoring w2 = monitoring w /\ monitor_threads w2 = monitor_threads w
    /\ last_data_hash w2 = last_data_hash w
    /\ last_config_hash w2 = last_config_hash w
    /\ (wf w -> wf w2)
    /\ (data_cache w2 = data_cache w /\ config_cache w2 = config_cache w
        \/ (exists l, data_cache w2 = Some l /\ length (frames w) <= l)
           /\ (config_cache w2 = None
               \/ exists l, config_cache w2 = Some l
                            /\ length (configs w) <= l))).
  { intros w1 H1 H2 H3 H4 H5 H5' H6 w2 [-> | [f ->]]; simpl; auto 10. }
  unfold reload_or_fall_back.
  destruct (fetched net) as [e | [table hives]] eqn:F.
  - destruct (reload_fails net w e F) as (rs & -> & _).
    assert (Hw1 : forall f, wf w -> wf (set_frames (frames (sent rs w) ++ [f])
                                          (sent rs w))).
    { intros f [Ha Hb]. split; intros l Hl; simpl in *.
      - specialize (Ha l Hl). rewrite length_app. lia.
      - exact (Hb l Hl). }
    destruct (data_cache (sent rs w)) eqn:Hd;
      [destruct (config_cache (sent rs w)) eqn:Hc|];
      simpl in Hd |- *;
      try (apply (Hcopy (sent rs w)); auto using return_cached_world);
      try (apply (Hcopy (sent rs w)) with (w2 := sent rs w); auto).
  - rewrite (reload_installs net w table hives F).
    set (w1 := sent _ w).
    destruct (null_or_not hives) as [-> | Hnn].
    + rewrite install_null. simpl.
      do 4 (split; [reflexivity|]). split.
      * intros _. split; intros l Hl; simpl in *; [|discriminate].
        injection Hl as <-. rewrite length_app. simpl. lia.
      * right. split; [eauto|now left].
    + rewrite install_world by exact Hnn. simpl snd.
      set (w2 := set_cache _ _ _).
      assert (Hshape : forall w3,
        (w3 = w2 \/ exists f, w3 = set_frames (frames w2 ++ [f]) w2) ->
        monitoring w3 = monitoring w /\ monitor_threads w3 = monitor_threads w
        /\ last_data_hash w3 = last_data_hash w
        /\ last_config_hash w3 = last_config_hash w
        /\ (wf w -> wf w3)
        /\ (data_cache w3 = data_cache w /\ config_cache w3 = config_cache w
            \/ (exists l, data_cache w3 = Some l /\ length (frames w) <= l)
               /\ (config_cache w3 = None
                   \/ exists l, config_cache w3 = Some l
                                /\ length (configs w) <= l))).
      { assert (Hwf2 : forall fs, wf (set_frames (frames w2 ++ fs) w2)).
        { intros fs. split; intros l Hl; simpl in *; injection Hl as <-;
            rewrite ?length_app; simpl; lia. }
        intros w3 [-> | [f ->]]; simpl;
          do 4 (split; [reflexivity|]); split.
        - intros _. specialize (Hwf2 []). simpl in Hwf2.
          now rewrite app_nil_r in Hwf2.
        - right. split; [eauto|right; eauto].
        - intros _. apply Hwf2.
        - right. split; [eauto|right; eauto]. }
      destruct (py_len hives); simpl; apply Hshape, return_cached_world.
Qed.

(** X14: [refresh_data] never keeps the table or the configuration that
    were cached before the call.  Afterwards each cache field is [None]
    or refers to an object created by this call, whether the call
    returned or raised. *)
Theorem refresh_data_drops_old_cache net w :
  (data_cache (snd (refresh_data net w)) = None
   \/ exists l, data_cache (snd (refresh_data net w)) = Some l
                /\ length (frames w) <= l)
  /\ (config_cache (snd (refresh_data net w)) = None
      \/ exists l, config_cache (snd (refresh_data net w)) = Some l
                   /\ length (configs w) <= l).
Proof.
  rewrite refresh_data_eq.
  destruct (refresh_start_fields w) as (Hd & Hc & Hf & Hg & _).
  set (w0 := if negb (monitoring w) then _ else _) in *.
  destruct (reload_or_fall_back_frame net w0) as (_ & _ & _ & _ & _ & Hcache).
  rewrite Hd, Hc, Hf, Hg in Hcache.
  destruct (reload_or_fall_back net w0) as [[e|r] w1]; simpl in *;
    (destruct Hcache as [[-> ->] | [Hnew1 Hnew2]]; [now split; left|]);
    (split; [now right|exact Hnew2]).
Qed.

(** What a load can do to the world, whatever it returns. *)
Lemma load_data_with_cache_frame net w :
  monitoring (snd (load_data_with_cache net w)) = monitoring w
  /\ monitor_threads (snd (load_data_with_cache net w)) = monitor_threads w
  /\ (wf w -> wf (snd (load_data_with_cache net w))).
Proof.
  unfold load_data_with_cache.
  assert (Hret : forall w1 : world,
    monitoring w1 = monitoring w -> monitor_threads w1 = monitor_threads w ->
    (wf w -> wf w1) ->
    monitoring (snd (return_cached w1)) = monitoring w
    /\ monitor_threads (snd (return_cached w1)) = monitor_threads w
    /\ (wf w -> wf (snd (return_cached w1)))).
  { intros w1 H1 H2 H3.
    destruct (return_cached_world w1) as [-> | [f ->]]; [auto|]. simpl.
    split; [exact H1|]. split; [exact H2|]. intros Hwf.
    destruct (H3 Hwf) as [Ha Hb]. split; intros l Hl; simpl in *.
    - specialize (Ha l Hl). rewrite length_app. lia.
    - exact (Hb l Hl). }
  assert (Hrel : forall w1 : world,
    monitoring w1 = monitoring w -> monitor_threads w1 = monitor_threads w ->
    (wf w -> wf w1) ->
    monitoring (snd (reload_or_fall_back net w1)) = monitoring w
    /\ monitor_threads (snd (reload_or_fall_back net w1)) = monitor_threads w
    /\ (wf w -> wf (snd (reload_or_fall_back net w1)))).
  { intros w1 H1 H2 H3.
    destruct (reload_or_fall_back_frame net w1) as (E1 & E2 & _ & _ & E5 & _).
    rewrite E1, E2. auto. }
  destruct (data_cache w) as [ld|] eqn:Hd;
    [destruct (config_cache w) as [lc|] eqn:Hc|]; try (now apply Hrel).
  destruct (check_for_updates net w) as [b w1] eqn:E.
  assert (Hw1 : w1 = snd (check_for_updates net w)) by now rewrite E.
  rewrite check_for_updates_world in Hw1.
  assert (H1 : monitoring w1 = monitoring w) by now subst w1.
  assert (H2 : monitor_threads w1 = monitor_threads w) by now subst w1.
  assert (H3 : wf w -> wf w1) by now subst w1.
  destruct b; [now apply Hrel|now apply Hret].
Qed.

Lemma wf_set_cache_none w : wf (set_cache None None w).
Proof. split; intros l Hl; discriminate. Qed.

Lemma wf_start_monitoring w : wf w -> wf (start_monitoring w).
Proof. unfold start_monitoring. now destruct (monitoring w). Qed.

Lemma wf_load_beehive net w :
  wf w -> wf (snd (load_beehive_data_from_json net w)).
Proof.
  intros Hwf. unfold load_beehive_data_from_json.
  set (w1 := if negb (monitoring w) then start_monitoring w else w).
  assert (Hwf1 : wf w1).
  { subst w1. destruct (negb (monitoring w));
      [now apply wf_start_monitoring|exact Hwf]. }
  destruct (load_data_with_cache_frame net w1) as (_ & _ & H).
  destruct (load_data_with_cache net w1) as [[e|r] w2]; simpl in *; auto.
Qed.

(** X13: in every world that the loader and its callers can reach from a
    fresh process, the cache fields refer to live objects, so that
    [self.data_cache.copy()] always finds its table. *)
Theorem reachable_wf w : reachable w -> wf w.
Proof.
  induction 1 as [|net w _ IH|net w _ IH|net w _ IH|net w _ IH|net w _ IH
                  |w _ IH|w _ IH|net w _ IH|l f w _ IH|l v w _ IH].
  - exact wf_init.
  - unfold force_check_updates. now rewrite check_for_updates_world.
  - now apply load_data_with_cache_frame.
  - now apply wf_load_beehive.
  - unfold refresh_data. apply wf_load_beehive, wf_set_cache_none.
  - destruct (collect_info_world net w) as [rs Hrs].
    unfold get_data_info.
    destruct (collect_info net w) as [[e|i] w']; simpl in *; now subst w'.
  - now apply wf_start_monitoring.
  - exact IH.
  - unfold monitor_loop. destruct (monitor_threads w); [exact IH|].
    destruct (monitoring w); [now rewrite check_for_updates_world|exact IH].
  - destruct IH as [Ha Hb]. split; intros x Hx; simpl in *.
    + rewrite length_insert. now apply Ha.
    + now apply Hb.
  - destruct IH as [Ha Hb]. split; intros x Hx; simpl in *.
    + now apply Ha.
    + rewrite length_insert. now apply Hb.
Qed.

(** ** The poller *)

(** X15: any number of calls of [start_monitoring] in a row starts one
    thread when monitoring was off and none when it was on. *)
Theorem start_monitoring_repeated n w :
  Nat.iter (S n) start_monitoring w = start_monitoring w
  /\ monitor_threads (Nat.iter (S n) start_monitoring w)
     = (if monitoring w then monitor_threads w else S (monitor_threads w)).
Proof.
  assert (Hiter : Nat.iter (S n) start_monitoring w = start_monitoring w).
  { induction n as [|n IH]; [reflexivity|].
    change (start_monitoring (Nat.iter (S n) start_monitoring w)
            = start_monitoring w).
    rewrite IH. apply start_monitoring_idempotent. }
  rewrite Hiter. split; [reflexivity|apply start_monitoring_launches].
Qed.

Lemma monitor_loop_stopped net w :
  monitoring w = false ->
  monitor_loop net w = set_threads (pred (monitor_threads w)) w.
Proof.
  intros Hm. unfold monitor_loop.
  destruct (monitor_threads w) eqn:Ht; [|now rewrite Hm].
  destruct w; simpl in *. now subst.
Qed.

(** X16: stopping works when nobody restarts.  After [stop_monitoring]
    every pass of a monitor thread through its loop head retires that
    thread without a request; after as many passes as there were threads
    none is left, and nothing but the thread count has changed. *)
Theorem stop_monitoring_retires_threads nets w :
  run_monitor nets (stop_monitoring w)
  = set_threads (monitor_threads w - length nets) (stop_monitoring w).
Proof.
  revert w. induction nets as [|net nets IH]; intros w.
  - simpl. rewrite Nat.sub_0_r. now destruct w.
  - simpl. rewrite monitor_loop_stopped by reflexivity.
    change (set_threads (pred (monitor_threads (stop_monitoring w)))
              (stop_monitoring w))
      with (stop_monitoring (set_threads (pred (monitor_threads w)) w)).
    rewrite IH. simpl. unfold set_threads, stop_monitoring, set_monitoring.
    simpl. f_equal. lia.
Qed.

(** X17: the poller writes to the fingerprints only.  However many
    passes the monitor threads make, the cached table, the cached
    configuration, every stored object and the monitoring flag stay as
    they were, and no thread is added. *)
Theorem run_monitor_keeps_cache nets w :
  data_cache (run_monitor nets w) = data_cache w
  /\ config_cache (run_monitor nets w) = config_cache w
  /\ frames (run_monitor nets w) = frames w
  /\ configs (run_monitor nets w) = configs w
  /\ monitoring (run_monitor nets w) = monitoring w
  /\ monitor_threads (run_monitor nets w) <= monitor_threads w.
Proof.
  revert w. induction nets as [|net nets IH]; intros w; [simpl; auto 10|].
  simpl. destruct (IH (monitor_loop net w)) as (H1 & H2 & H3 & H4 & H5 & H6).
  rewrite H1, H2, H3, H4, H5. clear IH H1 H2 H3 H4 H5.
  unfold monitor_loop in *.
  destruct (monitor_threads w) as [|k] eqn:Ht; [rewrite Ht in *; auto 10|].
  destruct (monitoring w) eqn:Hm.
  - rewrite check_for_updates_world in *. simpl in *. rewrite Ht in *.
    rewrite Hm. auto 10.
  - simpl in *. rewrite Hm. repeat split; auto; lia.
Qed.

(** ** The module-level functions *)

(** X18: [load_beehive_data_from_json] leaves monitoring on, whether it
    returns or raises; it starts a thread exactly when monitoring was
    off; what it returns is what [load_data_with_cache] returns, and
    what it raises is a [ValueError], a [FileNotFoundError] or a plain
    [Exception]. *)
Theorem load_beehive_data_from_json_monitors net w :
  monitoring (snd (load_beehive_data_from_json net w)) = true
  /\ monitor_threads (snd (load_beehive_data_from_json net w))
     = (if monitoring w then monitor_threads w else S (monitor_threads w))
  /\ (forall r,
        fst (load_beehive_data_from_json net w) = inr r
        <-> fst (load_data_with_cache net (start_monitoring w)) = inr r)
  /\ (forall e,
        fst (load_beehive_data_from_json net w) = inl e ->
        e = ValueError \/ e = FileNotFoundError \/ e = PlainException).
Proof.
  unfold load_beehive_data_from_json.
  assert (Hstart : (if negb (monitoring w) then start_monitoring w else w)
                   = start_monitoring w).
  { unfold start_monitoring. now destruct (monitoring w). }
  rewrite Hstart.
  destruct (load_data_with_cache_frame net (start_monitoring w))
    as (Hm & Ht & _).
  rewrite start_monitoring_sets_flag in Hm.
  rewrite start_monitoring_launches in Ht.
  destruct (load_data_with_cache net (start_monitoring w)) as [[e|r] w'];
    simpl in *.
  - split; [exact Hm|]. split; [exact Ht|]. split.
    + intros r. split; discriminate.
    + intros e' [= <-]. destruct e; simpl; auto.
  - split; [exact Hm|]. split; [exact Ht|]. split.
    + intros r'. tauto.
    + discriminate.
Qed.

(** X19: [get_data_info] never reads the cache and never asks for a
    fingerprint: every call downloads the data file, and the
    configuration file when the data file was fetched and decoded. *)
Theorem get_data_info_downloads net w :
  requests (snd (get_data_info net w)) = requests w ++ raw_requests net.
Proof.
  unfold get_data_info, collect_info, raw_requests, bind.
  rewrite load_json_from_github_eq.
  destruct (parsed net beehive_data) as [e|data]; [reflexivity|].
  rewrite load_json_from_github_eq, sent_sent.
  destruct (parsed net hives_config) as [e|hives]; [reflexivity|].
  unfold lift.
  destruct (py_iter data) as [e|items]; [reflexivity|].
  destruct (subscript_all items "timestamp") as [e|timestamps]; [reflexivity|].
  destruct (py_min timestamps) as [e|start_date]; [reflexivity|].
  destruct (py_max timestamps) as [e|end_date]; [reflexivity|].
  destruct (py_len data) as [e|total]; [reflexivity|].
  destruct (py_len hives) as [e|count]; [reflexivity|].
  destruct (py_iter hives) as [e|hive_items]; [reflexivity|].
  destruct (subscript_all hive_items "name") as [e|names]; reflexivity.
Qed.

Lemma subscript_all_length xs key vs :
  subscript_all xs key = inr vs -> length vs = length xs.
Proof.
  revert vs. induction xs as [|x xs IH]; intros vs; simpl.
  - now intros [= <-].
  - destruct (py_getitem x key); [discriminate|].
    destruct (subscript_all xs key) as [e|vs']; [discriminate|].
    intros [= <-]. simpl. now rewrite (IH vs').
Qed.

Lemma chars_length s : length (chars s) = String.length s.
Proof. induction s as [|c s IH]; simpl; [reflexivity|now rewrite IH]. Qed.

Lemma py_iter_length x items :
  py_iter x = inr items -> py_len x = inr (length items).
Proof.
  destruct x; simpl; try discriminate; intros [= <-].
  - now rewrite chars_length.
  - reflexivity.
  - now rewrite length_map.
Qed.

Lemma subscript_all_missing pre fields post key :
  Forall (fun x => exists v, py_getitem x key = inr v) pre ->
  assoc key fields = None ->
  subscript_all (pre ++ JObj fields :: post) key = inl KeyError.
Proof.
  intros Hpre Hmiss. induction Hpre as [|x pre [v Hv] _ IH]; simpl.
  - now rewrite Hmiss.
  - now rewrite Hv, IH.
Qed.

(** X20: when [get_data_info] returns the dictionary, both files were
    fetched and decoded, [total_records] and [num_hives] are the lengths
    of the two documents, [hive_names] has one entry per hive, and
    [auto_update] is the monitoring flag, which the call does not
    change. *)
Theorem get_data_info_counts net w i :
  fst (get_data_info net w) = Info i ->
  source i = "github"
  /\ auto_update i = monitoring w
  /\ length (hive_names i) = num_hives i
  /\ exists data hives,
       parsed net beehive_data = inr data
       /\ parsed net hives_config = inr hives
       /\ py_len data = inr (total_records i)
       /\ py_len hives = inr (num_hives i).
Proof.
  unfold get_data_info, collect_info, bind.
  rewrite load_json_from_github_eq.
  destruct (parsed net beehive_data) as [e|data]; [discriminate|].
  rewrite load_json_from_github_eq, sent_sent.
  destruct (parsed net hives_config) as [e|hives]; [discriminate|].
  unfold lift.
  destruct (py_iter data) as [e|items]; [discriminate|].
  destruct (subscript_all items "timestamp") as [e|timestamps]; [discriminate|].
  destruct (py_min timestamps) as [e|start_date]; [discriminate|].
  destruct (py_max timestamps) as [e|end_date]; [discriminate|].
  destruct (py_len data) as [e|total] eqn:Hlen; [discriminate|].
  destruct (py_len hives) as [e|count] eqn:Hcount; [discriminate|].
  destruct (py_iter hives) as [e|hive_items] eqn:Hiter; [discriminate|].
  destruct (subscript_all hive_items "name") as [e|names] eqn:Hnames;
    [discriminate|].
  simpl. intros [= <-]. simpl.
  split; [reflexivity|]. split; [reflexivity|]. split; [|eauto 10].
  rewrite (subscript_all_length _ _ _ Hnames).
  apply py_iter_length in Hiter. congruence.
Qed.

(** X21: a record without a timestamp is reported, not raised.  When the
    data file is a list whose first record lacking the key 'timestamp'
    comes after records that have it, [get_data_info] returns the text
    of a [KeyError]. *)
Theorem get_data_info_missing_timestamp net w pre fields post hives :
  parsed net beehive_data = inr (JArr (pre ++ JObj fields :: post)) ->
  parsed net hives_config = inr hives ->
  Forall (fun x => exists v, py_getitem x "timestamp" = inr v) pre ->
  assoc "timestamp" fields = None ->
  fst (get_data_info net w) = ErrorText KeyError.
Proof.
  intros Hdata Hhives Hpre Hmiss.
  unfold get_data_info, collect_info, bind.
  rewrite load_json_from_github_eq, Hdata.
  rewrite load_json_from_github_eq, Hhives.
  unfold lift. simpl py_iter. cbv iota beta.
  now rewrite (subscript_all_missing pre fields post "timestamp" Hpre Hmiss).
Qed.

(** ** The callers *)

Lemma refresh_data_returns net w r w' :
  refresh_data net w = (inr r, w')
  <-> reload_or_fall_back net
        (if negb (monitoring w) then start_monitoring (set_cache None None w)
         else set_cache None None w) = (inr r, w').
Proof.
  rewrite refresh_data_eq.
  destruct (reload_or_fall_back net _) as [[e|r'] w1]; split; congruence.
Qed.

(** X22: the refresh endpoint of [main.py] never raises, and it answers
    "success" exactly when both files were fetched and converted and the
    configuration has a length; the counts it then reports are those of
    the table and the configuration just fetched. *)
Theorem refresh_data_endpoint_success_iff frame_len net w records hives :
  fst (refresh_data_endpoint frame_len net w) = RefreshSuccess records hives
  <-> exists table config,
        fetched net = inr (table, config)
        /\ records = frame_len table
        /\ py_len config = inr hives.
Proof.
  unfold refresh_data_endpoint.
  destruct (refresh_start_fields w) as (Hd & Hc & Hf & Hg & _).
  set (w0 := if negb (monitoring w) then _ else _) in *.
  assert (Hwf : wf w0) by (split; intros l Hl; congruence).
  split.
  - destruct (refresh_data net w) as [[e|[d c]] w'] eqn:E; [discriminate|].
    apply refresh_data_returns in E. fold w0 in E.
    destruct (reload_or_fall_back_returns net w0 d c w' Hwf E)
      as [(e & ld & _ & _ & _ & _ & Hbad & _)
         |(t & h & F & Hnn & -> & -> & Hfr & Hcf & _)]; [congruence|].
    unfold len_frame, len_config. rewrite Hfr, Hcf.
    rewrite lookup_app_r by lia.
    replace (S (length (frames w0)) - length (frames w0)) with 1 by lia.
    rewrite lookup_app_r, Nat.sub_diag by lia. simpl.
    destruct (py_len h) as [e|n] eqn:Hlen; [discriminate|].
    intros [= <- <-]. eauto.
  - intros (t & h & F & -> & Hlen).
    assert (Hnn : h <> JNull) by (intros ->; discriminate).
    destruct (reload_replaces net w0 t h F Hnn)
      as (w' & Hr & Hfr & Hcf & _).
    apply refresh_data_returns in Hr. rewrite Hr.
    unfold len_frame, len_config. rewrite Hfr, Hcf.
    rewrite lookup_app_r by lia.
    replace (S (length (frames w0)) - length (frames w0)) with 1 by lia.
    rewrite lookup_app_r, Nat.sub_diag by lia. simpl.
    now rewrite Hlen.
Qed.

Lemma load_cache_same_or_new net w :
  data_cache (snd (load_data_with_cache net w)) = data_cache w
  \/ exists l, data_cache (snd (load_data_with_cache net w)) = Some l
               /\ length (frames w) <= l.
Proof.
  unfold load_data_with_cache.
  assert (Hrel : forall w1 : world,
    data_cache w1 = data_cache w -> frames w1 = frames w ->
    data_cache (snd (reload_or_fall_back net w1)) = data_cache w
    \/ exists l, data_cache (snd (reload_or_fall_back net w1)) = Some l
                 /\ length (frames w) <= l).
  { intros w1 H1 H2.
    destruct (reload_or_fall_back_frame net w1)
      as (_ & _ & _ & _ & _ & [[E _] | [E _]]).
    - left. congruence.
    - right. now rewrite <- H2. }
  destruct (data_cache w) as [ld|] eqn:Hd;
    [destruct (config_cache w) as [lc|] eqn:Hc|]; try (now apply Hrel).
  destruct (check_for_updates net w) as [b w1] eqn:E.
  destruct (checked_world net w b w1 E) as (_ & Hd1 & _ & Hf1 & _).
  destruct b; [apply Hrel; congruence|].
  left. destruct (return_cached_world w1) as [-> | [f ->]]; simpl; congruence.
Qed.

Lemma return_cached_grows w :
  length (frames w) <= length (frames (snd (return_cached w))).
Proof.
  destruct (return_cached_world w) as [-> | [f ->]]; [lia|].
  simpl. rewrite length_app. lia.
Qed.

Lemma reload_or_fall_back_grows net w :
  length (frames w) <= length (frames (snd (reload_or_fall_back net w))).
Proof.
  unfold reload_or_fall_back.
  destruct (fetched net) as [e | [table hives]] eqn:F.
  - destruct (reload_fails net w e F) as (rs & -> & _).
    pose proof (return_cached_grows (sent rs w)) as Hret.
    destruct (data_cache (sent rs w));
      [destruct (config_cache (sent rs w))|]; simpl in *; lia.
  - rewrite (reload_installs net w table hives F).
    set (w1 := sent _ w).
    destruct (null_or_not hives) as [-> | Hnn].
    + rewrite install_null. simpl. rewrite length_app. lia.
    + rewrite install_world by exact Hnn. simpl snd.
      set (w2 := set_cache _ _ _).
      pose proof (return_cached_grows w2) as Hret.
      assert (Hlen : length (frames w) <= length (frames w2)).
      { subst w2 w1. simpl. rewrite length_app. lia. }
      destruct (py_len hives); simpl; lia.
Qed.

Lemma load_frames_grow net w :
  length (frames w) <= length (frames (snd (load_data_with_cache net w))).
Proof.
  unfold load_data_with_cache.
  destruct (data_cache w) as [ld|];
    [destruct (config_cache w) as [lc|]|];
    try apply reload_or_fall_back_grows.
  destruct (check_for_updates net w) as [b w1] eqn:E.
  destruct (checked_world net w b w1 E) as (_ & _ & _ & Hf1 & _).
  rewrite <- Hf1.
  destruct b; [apply reload_or_fall_back_grows|apply return_cached_grows].
Qed.

(** X23: the tables that the dashboard holds are its own.  If the global
    [df] is a live object other than the cached table, it still is after
    the reload that opens [update_dashboard], whether the load returned
    (then [df] is the new copy) or raised (then [df] is kept); so what
    the dashboard does to [df] cannot reach the cache. *)
Theorem reload_tables_keeps_df_apart net g w :
  wf w ->
  df g < length (frames w) ->
  data_cache w <> Some (df g) ->
  df (fst (reload_tables net g w))
    < length (frames (snd (reload_tables net g w)))
  /\ data_cache (snd (reload_tables net g w))
     <> Some (df (fst (reload_tables net g w)))
  /\ wf (snd (reload_tables net g w)).
Proof.
  intros Hwf Hlive Hapart. unfold reload_tables, load_beehive_data_from_json.
  assert (Hstart : (if negb (monitoring w) then start_monitoring w else w)
                   = start_monitoring w).
  { unfold start_monitoring. now destruct (monitoring w). }
  rewrite Hstart.
  assert (Hwf1 : wf (start_monitoring w)) by now apply wf_start_monitoring.
  assert (Hf1 : frames (start_monitoring w) = frames w).
  { unfold start_monitoring. now destruct (monitoring w). }
  assert (Hd1 : data_cache (start_monitoring w) = data_cache w).
  { unfold start_monitoring. now destruct (monitoring w). }
  destruct (load_data_with_cache_frame net (start_monitoring w))
    as (_ & _ & Hwf').
  pose proof (load_cache_same_or_new net (start_monitoring w)) as Hcache.
  pose proof (load_frames_grow net (start_monitoring w)) as Hgrow.
  rewrite Hf1, Hd1 in *.
  destruct (load_data_with_cache net (start_monitoring w))
    as [[e|[d c]] w'] eqn:E; simpl in *.
  - (* the load raised: the globals are kept *)
    split; [lia|]. split; [|now apply Hwf'].
    destruct Hcache as [-> | (l & -> & Hl)]; [exact Hapart|].
    intros [= ->]. lia.
  - (* the load returned: the globals are the new objects *)
    destruct (load_settles net _ d c w' Hwf1 E)
      as (f & lc & _ & _ & _ & Hf & _ & Hne & _).
    split; [eapply lookup_lt_Some; exact Hf|].
    split; [exact Hne|now apply Hwf'].
Qed.

(** X24: the initial load of [dashboard.py] sets up that state, or the
    process exits: on a well-formed world [dashboard_start] either
    yields no tables, exactly when the load raised, or a [df] that is a
    live object other than the cached table. *)
Theorem dashboard_start_owns_df net w :
  wf w ->
  match fst (dashboard_start net w) with
  | None => exists e, fst (load_beehive_data_from_json net w) = inl e
  | Some g =>
      df g < length (frames (snd (dashboard_start net w)))
      /\ data_cache (snd (dashboard_start net w)) <> Some (df g)
      /\ wf (snd (dashboard_start net w))
  end.
Proof.
  intros Hwf. unfold dashboard_start, load_beehive_data_from_json.
  assert (Hstart : (if negb (monitoring w) then start_monitoring w else w)
                   = start_monitoring w).
  { unfold start_monitoring. now destruct (monitoring w). }
  rewrite Hstart.
  assert (Hwf1 : wf (start_monitoring w)) by now apply wf_start_monitoring.
  destruct (load_data_with_cache_frame net (start_monitoring w))
    as (_ & _ & Hwf').
  destruct (load_data_with_cache net (start_monitoring w))
    as [[e|[d c]] w'] eqn:E; simpl in *; [eauto|].
  destruct (load_settles net _ d c w' Hwf1 E)
    as (f & lc & _ & _ & _ & Hf & _ & Hne & _).
  split; [eapply lookup_lt_Some; exact Hf|].
  split; [exact Hne|now apply Hwf'].
Qed.

End MoreProperties.

(** ** The alerts of the dashboard *)

Lemma hot_and_cold_exclude c :
  py_gt c 38 1 = inr true -> py_lt c 30 1 = inr true -> False.
Proof.
  destruct c as [n d| |up|]; simpl; try discriminate.
  - intros [= H1] [= H2]. apply Z.ltb_lt in H1, H2. lia.
  - intros [= ->] [=].
Qed.

Lemma row_alerts_cases r alerts :
  row_alerts r = inr alerts ->
  exists hot cold damp light idle,
    py_gt (temperature r) 38 1 = inr hot
    /\ py_lt (temperature r) 30 1 = inr cold
    /\ py_gt (humidity r) 80 1 = inr damp
    /\ py_lt (weight r) 30 1 = inr light
    /\ py_lt (production_efficiency r)
             efficiency_bound_num efficiency_bound_den = inr idle
    /\ alerts
       = (if hot then [Alert HighTemp (hive_name r) (temperature r)] else [])
         ++ (if cold then [Alert LowTemp (hive_name r) (temperature r)]
             else [])
         ++ (if damp then [Alert HighHumidity (hive_name r) (humidity r)]
             else [])
         ++ (if light then [Alert LowWeight (hive_name r) (weight r)]
             else [])
         ++ (if idle
             then [Alert LowEfficiency (hive_name r)
                         (production_efficiency r)]
             else []).
Proof.
  unfold row_alerts.
  destruct (py_gt (temperature r) 38 1) as [e|hot]; [discriminate|].
  destruct (py_lt (temperature r) 30 1) as [e|cold]; [discriminate|].
  destruct (py_gt (humidity r) 80 1) as [e|damp]; [discriminate|].
  destruct (py_lt (weight r) 30 1) as [e|light]; [discriminate|].
  destruct (py_lt (production_efficiency r) _ _) as [e|idle]; [discriminate|].
  intros [= <-]. exists hot, cold, damp, light, idle. auto 10.
Qed.

Lemma row_alerts_at_most_four r alerts :
  row_alerts r = inr alerts -> length alerts <= 4.
Proof.
  intros H.
  destruct (row_alerts_cases r alerts H)
    as (hot & cold & damp & light & idle & Hh & Hc & _ & _ & _ & ->).
  destruct hot, cold; try (exfalso; exact (hot_and_cold_exclude _ Hh Hc));
    destruct damp, light, idle; simpl; lia.
Qed.

(** X25: a hive raises at most four alerts, never both the high and the
    low temperature alert, and each alert carries the name of its hive;
    so the alert count of the dashboard is at most four times the number
    of hives shown. *)
Theorem alerts_bounded :
  (forall rows alerts,
      generate_alerts rows = inr alerts ->
      length alerts <= 4 * length rows)
  /\ (forall r here,
        row_alerts r = inr here ->
        ~ (In HighTemp (map Type_ here) /\ In LowTemp (map Type_ here))
        /\ Forall (fun a => Hive a = hive_name r) here).
Proof.
  split.
  - induction rows as [|r rows IH]; intros alerts; simpl.
    + intros [= <-]. simpl. lia.
    + destruct (row_alerts r) as [e|here] eqn:Hr; [discriminate|].
      destruct (generate_alerts rows) as [e|later]; [discriminate|].
      intros [= <-]. rewrite length_app.
      pose proof (row_alerts_at_most_four r here Hr).
      specialize (IH later eq_refl). lia.
  - intros r here Hr.
    destruct (row_alerts_cases r here Hr)
      as (hot & cold & damp & light & idle & Hh & Hc & _ & _ & _ & ->).
    split.
    + destruct hot, cold;
        try (exfalso; exact (hot_and_cold_exclude _ Hh Hc));
        destruct damp, light, idle; simpl; intuition discriminate.
    + destruct hot, cold, damp, light, idle; simpl;
        repeat constructor.
Qed.


(** ** The rest of the loader on concrete inputs *)

Example init_names_missing_variable :
  __init__ owner_only_env
  = inl "Missing required environment variables: GITHUB_REPO_NAME"%string.
Proof. reflexivity. Qed.

Example wire_of_lookup :
  exists s, __init__ full_env = inr s
            /\ url (wire s (GetContents beehive_data))
               = "https://api.github.com/repos/apiary/hives/contents/beehive_data.json"%string
            /\ url (wire s (GetRaw hives_config))
               = "https://raw.githubusercontent.com/apiary/hives/main/hives_config.json"%string.
Proof. eexists. split; [reflexivity|]. split; reflexivity. Qed.

Example cold_light_hive :
  option_map (map Type_) (match row_alerts weak_row with
                          | inr l => Some l | inl _ => None end)
  = Some [LowTemp; LowWeight].
Proof. reflexivity. Qed.

Lemma init_headers_witness :
  exists s,
    __init__ full_env = inr s
    /\ In ("Accept", "application/vnd.github.v3+json")%string (headers s)
    /\ In ("Authorization", "token s3cret")%string (headers s).
Proof.
  eexists. split; [reflexivity|].
  destruct (init_headers full_env _ eq_refl) as (_ & Hacc & Hauth & _).
  split; [exact Hacc|]. apply Hauth. exists "s3cret"%string.
  split; [reflexivity|]. split; [discriminate|reflexivity].
Defined.

Lemma token_only_sent_to_api_witness :
  exists s,
    __init__ full_env = inr s
    /\ forall a, request_headers (wire s (GetRaw a)) = [].
Proof.
  eexists. split; [reflexivity|].
  exact (proj1 (token_only_sent_to_api full_env _ (GetRaw beehive_data)
                  eq_refl)).
Defined.

Lemma load_json_from_github_raises_witness :
  raw_host gone beehive_data = RawStatus 404 "Not Found"
  /\ fst (load_json_from_github gone beehive_data (@init toy))
     = inl FileNotFoundError.
Proof.
  split; [reflexivity|].
  apply (proj1 (@load_json_from_github_raises toy gone beehive_data init)).
  left. eexists. reflexivity.
Defined.

Lemma load_without_change_witness :
  fst (check_for_updates steady warm) = false
  /\ exists d w',
       load_data_with_cache steady warm = (inr (d, Some 0), w')
       /\ requests w'
          = requests warm
            ++ [GetContents beehive_data; GetContents hives_config].
Proof.
  split; [reflexivity|].
  destruct (load_without_change steady warm 0 0 [JObj []]
              eq_refl eq_refl eq_refl eq_refl)
    as (d & w' & Hl & Hreq & _).
  exists d, w'. split; [exact Hl|exact Hreq].
Defined.

Lemma load_reloads_on_change_witness :
  fst (check_for_updates moved warm) = true
  /\ @fetched toy moved = inr ([], JArr [])
  /\ exists w',
       load_data_with_cache moved warm = (inr (2, Some 1), w')
       /\ data_cache w' = Some 1
       /\ config_cache w' = Some 1.
Proof.
  split; [reflexivity|]. split; [reflexivity|].
  destruct (load_reloads_on_change moved warm 0 0 [] (JArr [])
              eq_refl eq_refl eq_refl eq_refl)
    as (w' & Hl & _ & _ & Hd & Hc & _); [discriminate|].
  exists w'. auto.
Defined.

Lemma load_null_config_tears_cache_witness :
  fst (check_for_updates null_config warm) = true
  /\ @fetched toy null_config = inr ([], JNull)
  /\ exists w',
       load_data_with_cache null_config warm = (inl TypeError, w')
       /\ data_cache w' = Some 1
       /\ config_cache w' = None.
Proof.
  split; [reflexivity|]. split; [reflexivity|].
  destruct (load_null_config_tears_cache null_config warm []
              (or_intror (or_intror eq_refl)) eq_refl)
    as (w' & Hl & Hd & _ & Hc & _).
  exists w'. auto.
Defined.

Lemma first_load_then_no_reload_witness :
  wf (@init toy)
  /\ load_data_with_cache steady (@init toy)
     = (inr (1, Some 0), snd (load_data_with_cache steady (@init toy)))
  /\ exists d2 w2,
       load_data_with_cache moved (snd (load_data_with_cache steady (@init toy)))
       = (inr (d2, Some 0), w2)
       /\ requests w2
          = requests (snd (load_data_with_cache steady (@init toy)))
            ++ [GetContents beehive_data; GetContents hives_config].
Proof.
  split; [exact wf_init|]. split; [reflexivity|].
  destruct (first_load_then_no_reload steady (@init toy) 1 (Some 0)
              (snd (load_data_with_cache steady (@init toy)))
              wf_init (or_introl eq_refl) eq_refl eq_refl eq_refl moved)
    as (d2 & w2 & Hl & Hreq & _).
  exists d2, w2. auto.
Defined.

Lemma monitor_pass_hides_change_witness :
  fst (check_for_updates moved watched) = true
  /\ exists d w',
       load_data_with_cache moved (monitor_loop moved watched)
       = (inr (d, Some 0), w')
       /\ frames w' !! d = Some [JObj []].
Proof.
  split; [reflexivity|].
  destruct (monitor_pass_hides_change moved watched 0 0 [JObj []]
              eq_refl (fun H => O_S 0 (eq_sym H)) eq_refl eq_refl eq_refl)
    as (d & w' & Hl & Hf & _).
  exists d, w'. auto.
Defined.

Lemma reachable_wf_witness :
  reachable (snd (load_data_with_cache steady (@init toy)))
  /\ wf (snd (load_data_with_cache steady (@init toy))).
Proof.
  assert (H : reachable (snd (load_data_with_cache steady (@init toy))))
    by (apply reach_load, reach_init).
  split; [exact H|exact (reachable_wf _ H)].
Defined.

Lemma get_data_info_counts_witness :
  exists i,
    fst (get_data_info catalogue_net (@init catalogue)) = Info i
    /\ total_records i = 1 /\ num_hives i = 1
    /\ length (hive_names i) = num_hives i.
Proof.
  eexists. split; [reflexivity|]. split; [reflexivity|].
  split; [reflexivity|].
  exact (proj1 (proj2 (proj2 (@get_data_info_counts catalogue catalogue_net
                                init _ eq_refl)))).
Defined.

Lemma get_data_info_missing_timestamp_witness :
  @parsed toy steady beehive_data = inr (JArr [JObj []])
  /\ fst (get_data_info steady (@init toy)) = ErrorText KeyError.
Proof.
  split; [reflexivity|].
  exact (@get_data_info_missing_timestamp toy steady init [] [] [] (JArr [])
           eq_refl eq_refl ltac:(constructor) eq_refl).
Defined.

Lemma reload_tables_keeps_df_apart_witness :
  wf (snd (load_data_with_cache steady (@init toy)))
  /\ data_cache (snd (load_data_with_cache steady (@init toy))) = Some 0
  /\ data_cache (snd (reload_tables gone (Tables 1 (Some 0))
                        (snd (load_data_with_cache steady (@init toy)))))
     <> Some (df (fst (reload_tables gone (Tables 1 (Some 0))
                         (snd (load_data_with_cache steady (@init toy)))))).
Proof.
  assert (Hwf : wf (snd (load_data_with_cache steady (@init toy)))).
  { split; intros l [= <-]; simpl; lia. }
  split; [exact Hwf|]. split; [reflexivity|].
  assert (Hlive : df (Tables 1 (Some 0))
                  < length (frames (snd (load_data_with_cache steady
                                           (@init toy)))))
    by (simpl; lia).
  assert (Hapart : data_cache (snd (load_data_with_cache steady (@init toy)))
                   <> Some (df (Tables 1 (Some 0)))) by discriminate.
  exact (proj1 (proj2 (reload_tables_keeps_df_apart gone (Tables 1 (Some 0))
                         _ Hwf Hlive Hapart))).
Defined.

Lemma dashboard_start_owns_df_witness :
  wf (@init toy)
  /\ fst (dashboard_start steady (@init toy)) = Some (Tables 1 (Some 0))
  /\ data_cache (snd (dashboard_start steady (@init toy))) <> Some 1.
Proof.
  split; [exact wf_init|]. split; [reflexivity|].
  exact (proj1 (proj2 (dashboard_start_owns_df steady (@init toy) wf_init))).
Defined.

Lemma alerts_bounded_witness :
  generate_alerts [healthy_row; weak_row]
  = inr [Alert LowTemp "Hive B" (CNum 29 1); Alert LowWeight "Hive B" (CNum 59 2)]
  /\ 2 <= 4 * 2.
Proof.
  split; [reflexivity|].
  exact (proj1 alerts_bounded [healthy_row; weak_row] _ eq_refl).
Defined.

